(** * Fruit Ninja CV: the game engine of [src/hooks/useGameEngine.ts]

    A shallow embedding of the slicing engine (collision test, slice
    handlers, physics update, spawner, timers, persistence) and the
    properties of its specification.

    Numbers.  A JavaScript [number] is an IEEE-754 binary64 value.  The
    geometry and the physics are embedded over [spec_float], the executable
    specification of binary64 arithmetic of the Standard Library (rounding
    to nearest even, signed zeros, infinities, NaN).  The counters of
    [GameStats] and the millisecond clock [Date.now()] only ever hold
    integers, which binary64 represents exactly below 2^53; they are
    embedded as [Z]. *)

From Stdlib Require Import ZArith List Bool String Lia.
From Stdlib Require Import Floats.SpecFloat.
Import ListNotations.
Open Scope Z_scope.

(** ** JavaScript numbers *)

Module JS.

Definition prec : Z := 53.
Definition emax : Z := 1024.

Definition number : Type := spec_float.

Definition NaN : number := S754_nan.

(** An integer literal. *)
Definition ofZ (z : Z) : number := binary_normalize prec emax z 0 false.

Definition add : number -> number -> number := SFadd prec emax.
Definition sub : number -> number -> number := SFsub prec emax.
Definition mul : number -> number -> number := SFmul prec emax.
Definition div : number -> number -> number := SFdiv prec emax.
Definition sqrt : number -> number := SFsqrt prec emax.
Definition neg : number -> number := SFopp.

(** [a < b], [a <= b], [a > b], [a >= b]: all false when an operand is NaN. *)
Definition lt (a b : number) : bool := SFltb a b.
Definition le (a b : number) : bool := SFleb a b.
Definition gt (a b : number) : bool := SFltb b a.
Definition ge (a b : number) : bool := SFleb b a.

(** The decimal literal [n / 10^k] (as in [0.4 = dec 4 1]): numerator and
    power of ten are exact, and the correctly rounded quotient is the
    binary64 value nearest to the literal. *)
Definition dec (n : Z) (k : nat) : number :=
  div (ofZ n) (ofZ (10 ^ Z.of_nat k)).

(** [Math.min] on two numbers: NaN when either is NaN, and [-0] below
    [+0]. *)
Definition min (a b : number) : number :=
  match SFcompare a b with
  | None => NaN
  | Some Gt => b
  | Some Lt => a
  | Some Eq =>
      match a, b with
      | S754_zero false, S754_zero true => b
      | _, _ => a
      end
  end.

(** The integer [Math.floor x] of a finite number; [None] for NaN and the
    infinities. *)
Definition floor (x : number) : option Z :=
  match x with
  | S754_zero _ => Some 0
  | S754_finite s m e =>
      let v := cond_Zopp s (Zpos m) in
      Some (if 0 <=? e then v * 2 ^ e else v / 2 ^ (- e))
  | _ => None
  end.

(** A number that is a zero of either sign, or NaN. *)
Definition zeroOrNaN (x : number) : Prop :=
  match x with
  | S754_zero _ | S754_nan => True
  | _ => False
  end.

Definition isFinite (x : number) : Prop :=
  match x with
  | S754_zero _ | S754_finite _ _ _ => True
  | _ => False
  end.

End JS.

Arguments JS.ofZ : simpl never.
Arguments JS.add : simpl never.
Arguments JS.sub : simpl never.
Arguments JS.mul : simpl never.
Arguments JS.div : simpl never.
Arguments JS.sqrt : simpl never.
Arguments JS.dec : simpl never.

Declare Scope js_scope.
Delimit Scope js_scope with js.
Infix "+" := JS.add : js_scope.
Infix "-" := JS.sub : js_scope.
Infix "*" := JS.mul : js_scope.
Infix "/" := JS.div : js_scope.
Notation "- x" := (JS.neg x) : js_scope.

(** ** The segment-against-circle test *)

(** The discriminant of the quadratic and its two roots, as
    [lineCircleIntersection] computes them. *)
Record Quadratic := {
  qa : JS.number;
  qb : JS.number;
  qc : JS.number;
  qdisc : JS.number
}.

Definition quadratic (x1 y1 x2 y2 cx cy r : JS.number) : Quadratic :=
  let dx := (x2 - x1)%js in
  let dy := (y2 - y1)%js in
  let fx := (x1 - cx)%js in
  let fy := (y1 - cy)%js in
  let a := (dx * dx + dy * dy)%js in
  let b := (JS.ofZ 2 * (fx * dx + fy * dy))%js in
  let c := ((fx * fx + fy * fy) - r * r)%js in
  {| qa := a; qb := b; qc := c; qdisc := (b * b - JS.ofZ 4 * a * c)%js |}.

Definition root1 (q : Quadratic) : JS.number :=
  ((- qb q - JS.sqrt (qdisc q)) / (JS.ofZ 2 * qa q))%js.

Definition root2 (q : Quadratic) : JS.number :=
  ((- qb q + JS.sqrt (qdisc q)) / (JS.ofZ 2 * qa q))%js.

Definition inUnitRange (t : JS.number) : bool :=
  JS.ge t (JS.ofZ 0) && JS.le t (JS.ofZ 1).

Definition lineCircleIntersection (x1 y1 x2 y2 cx cy r : JS.number) : bool :=
  let q := quadratic x1 y1 x2 y2 cx cy r in
  if JS.lt (qdisc q) (JS.ofZ 0) then false
  else inUnitRange (root1 q) || inUnitRange (root2 q).

(** ** The data model of [src/types/game.ts] *)

Inductive FruitType :=
  | apple | orange | watermelon | banana | pineapple | strawberry.

Inductive SpecialFruitType := frenzy | freeze.

Inductive GameState := menu | playing | gameover.

Inductive Half := half_left | half_right.

Definition GameState_eqb (a b : GameState) : bool :=
  match a, b with
  | menu, menu | playing, playing | gameover, gameover => true
  | _, _ => false
  end.

Record Fruit := {
  fruit_id : string;
  fruit_type : FruitType;
  fruit_x : JS.number;
  fruit_y : JS.number;
  fruit_velocityX : JS.number;
  fruit_velocityY : JS.number;
  fruit_rotation : JS.number;
  fruit_rotationSpeed : JS.number;
  fruit_radius : JS.number;
  fruit_sliced : bool
}.

Record Bomb := {
  bomb_id : string;
  bomb_x : JS.number;
  bomb_y : JS.number;
  bomb_velocityX : JS.number;
  bomb_velocityY : JS.number;
  bomb_rotation : JS.number;
  bomb_rotationSpeed : JS.number;
  bomb_radius : JS.number;
  bomb_sliced : bool
}.

Record SpecialFruit := {
  special_id : string;
  specialType : SpecialFruitType;
  special_x : JS.number;
  special_y : JS.number;
  special_velocityX : JS.number;
  special_velocityY : JS.number;
  special_rotation : JS.number;
  special_rotationSpeed : JS.number;
  special_radius : JS.number
}.

Record SlicedFruit := {
  sf_id : string;
  sf_type : FruitType;
  sf_x : JS.number;
  sf_y : JS.number;
  sf_velocityX : JS.number;
  sf_velocityY : JS.number;
  sf_rotation : JS.number;
  sf_rotationSpeed : JS.number;
  sf_radius : JS.number;
  sf_half : Half;
  sf_sliceAngle : JS.number;
  sf_createdAt : Z
}.

Record GameStats := {
  score : Z;
  lives : Z;
  combo : Z;
  maxCombo : Z;
  fruitsSliced : Z;
  highScore : Z
}.

(** A point of the blade trail ([BladePoint] of [useHandTracking]). *)
Record BladePoint := {
  bp_x : JS.number;
  bp_y : JS.number;
  bp_timestamp : Z
}.

Definition FRUIT_POINTS (t : FruitType) : Z :=
  match t with
  | apple => 1
  | orange => 1
  | watermelon => 2
  | banana => 1
  | pineapple => 2
  | strawberry => 1
  end.

(** ** The constants of the engine *)

Definition GRAVITY : JS.number := JS.dec 4 1.
Definition INITIAL_LIVES : Z := 3.
Definition SPAWN_INTERVAL_BASE : Z := 1500.
Definition SPAWN_INTERVAL_MIN : Z := 600.
Definition BOMB_CHANCE_BASE : JS.number := JS.dec 15 2.
Definition BOMB_CHANCE_MAX : JS.number := JS.dec 35 2.
Definition SLICED_FRUIT_LIFETIME : Z := 1500.
Definition COMBO_WINDOW : Z := 800.
Definition SPECIAL_FRUIT_CHANCE : JS.number := JS.dec 8 2.
Definition SPECIAL_FRUIT_MIN_WAVE : Z := 1.
Definition GUARANTEED_SPECIAL_INTERVAL : Z := 15.
Definition CRITICAL_THROW_CHANCE : JS.number := JS.dec 12 2.

Definition FRUIT_TYPES : list FruitType :=
  [apple; orange; watermelon; banana; pineapple; strawberry].

(** ** The host: timers and local storage *)

(** The callbacks the engine hands to [setTimeout].  The frenzy callback
    closes over the [gameState] of the render in which [activateFrenzy] was
    created; the other callbacks close over nothing that changes. *)
Inductive Callback :=
  | CbSpawnFruit                       (* () => spawnFruit() *)
  | CbFrenzySpawn (captured : GameState) (* if (gameState === 'playing') spawnFruit() *)
  | CbEndEffect                        (* setActiveEffect(null); setTimeScale(1) *)
  | CbBombFlashOff                     (* setBombFlash(false) *)
  | CbCriticalFlashOff                 (* setCriticalFlash(false) *)
  | CbWaveAnnouncementOff.             (* setShowWaveAnnouncement(false) *)

Record Timer := {
  timer_id : nat;
  timer_delay : Z;
  timer_callback : Callback
}.

(** [localStorage], restricted to the key ['fruitNinjaHighScore'].  The
    stored decimal string is kept as the integer it denotes.  [writable]
    is false when [setItem] raises (quota exceeded, storage disabled).
    [writeLog] records the values handed to [setItem], newest first. *)
Record Storage := {
  persisted : option Z;
  writable : bool;
  writeLog : list Z
}.

(** ** The state of the hook

    The [useState] cells, the [useRef] cells, and the part of the host the
    engine acts on.  [randomCalls] counts the calls of [Math.random] so far;
    [stateLog] records the arguments of the calls of [setGameState], newest
    first. *)
Record World := {
  gameState : GameState;
  stats : GameStats;
  fruits : list Fruit;
  bombs : list Bomb;
  specialFruits : list SpecialFruit;
  slicedFruits : list SlicedFruit;
  bombFlash : bool;
  activeEffect : option SpecialFruitType;
  timeScale : JS.number;
  lastSpawnRef : Z;
  lastComboTimeRef : Z;
  waveRef : Z;
  effectTimeoutRef : option nat;
  spawnsSinceSpecialRef : Z;
  currentWave : Z;
  showWaveAnnouncement : bool;
  criticalFlash : bool;
  timers : list Timer;
  nextTimerId : nat;
  storage : Storage;
  randomCalls : nat;
  stateLog : list GameState
}.

(** Field updates ([{ ...w, field: v }]). *)

Definition set_gameState (v : GameState) (w : World) : World :=
  {| gameState := v; stats := stats w; fruits := fruits w; bombs := bombs w;
     specialFruits := specialFruits w; slicedFruits := slicedFruits w;
     bombFlash := bombFlash w; activeEffect := activeEffect w;
     timeScale := timeScale w; lastSpawnRef := lastSpawnRef w;
     lastComboTimeRef := lastComboTimeRef w; waveRef := waveRef w;
     effectTimeoutRef := effectTimeoutRef w;
     spawnsSinceSpecialRef := spawnsSinceSpecialRef w;
     currentWave := currentWave w;
     showWaveAnnouncement := showWaveAnnouncement w;
     criticalFlash := criticalFlash w; timers := timers w;
     nextTimerId := nextTimerId w; storage := storage w;
     randomCalls := randomCalls w; stateLog := stateLog w |}.

Definition set_stats (v : GameStats) (w : World) : World :=
  {| gameState := gameState w; stats := v; fruits := fruits w;
     bombs := bombs w; specialFruits := specialFruits w;
     slicedFruits := slicedFruits w; bombFlash := bombFlash w;
     activeEffect := activeEffect w; timeScale := timeScale w;
     lastSpawnRef := lastSpawnRef w; lastComboTimeRef := lastComboTimeRef w;
     waveRef := waveRef w; effectTimeoutRef := effectTimeoutRef w;
     spawnsSinceSpecialRef := spawnsSinceSpecialRef w;
     currentWave := currentWave w;
     showWaveAnnouncement := showWaveAnnouncement w;
     criticalFlash := criticalFlash w; timers := timers w;
     nextTimerId := nextTimerId w; storage := storage w;
     randomCalls := randomCalls w; stateLog := stateLog w |}.

Definition set_fruits (v : list Fruit) (w : World) : World :=
  {| gameState := gameState w; stats := stats w; fruits := v;
     bombs := bombs w; specialFruits := specialFruits w;
     slicedFruits := slicedFruits w; bombFlash := bombFlash w;
     activeEffect := activeEffect w; timeScale := timeScale w;
     lastSpawnRef := lastSpawnRef w; lastComboTimeRef := lastComboTimeRef w;
     waveRef := waveRef w; effectTimeoutRef := effectTimeoutRef w;
     spawnsSinceSpecialRef := spawnsSinceSpecialRef w;
     currentWave := currentWave w;
     showWaveAnnouncement := showWaveAnnouncement w;
     criticalFlash := criticalFlash w; timers := timers w;
     nextTimerId := nextTimerId w; storage := storage w;
     randomCalls := randomCalls w; stateLog := stateLog w |}.

Definition set_bombs (v : list Bomb) (w : World) : World :=
  {| gameState := gameState w; stats := stats w; fruits := fruits w;
     bombs := v; specialFruits := specialFruits w;
     slicedFruits := slicedFruits w; bombFlash := bombFlash w;
     activeEffect := activeEffect w; timeScale := timeScale w;
     lastSpawnRef := lastSpawnRef w; lastComboTimeRef := lastComboTimeRef w;
     waveRef := waveRef w; effectTimeoutRef := effectTimeoutRef w;
     spawnsSinceSpecialRef := spawnsSinceSpecialRef w;
     currentWave := currentWave w;
     showWaveAnnouncement := showWaveAnnouncement w;
     criticalFlash := criticalFlash w; timers := timers w;
     nextTimerId := nextTimerId w; storage := storage w;
     randomCalls := randomCalls w; stateLog := stateLog w |}.

Definition set_specialFruits (v : list SpecialFruit) (w : World) : World :=
  {| gameState := gameState w; stats := stats w; fruits := fruits w;
     bombs := bombs w; specialFruits := v; slicedFruits := slicedFruits w;
     bombFlash := bombFlash w; activeEffect := activeEffect w;
     timeScale := timeScale w; lastSpawnRef := lastSpawnRef w;
     lastComboTimeRef := lastComboTimeRef w; waveRef := waveRef w;
     effectTimeoutRef := effectTimeoutRef w;
     spawnsSinceSpecialRef := spawnsSinceSpecialRef w;
     currentWave := currentWave w;
     showWaveAnnouncement := showWaveAnnouncement w;
     criticalFlash := criticalFlash w; timers := timers w;
     nextTimerId := nextTimerId w; storage := storage w;
     randomCalls := randomCalls w; stateLog := stateLog w |}.

Definition set_slicedFruits (v : list SlicedFruit) (w : World) : World :=
  {| gameState := gameState w; stats := stats w; fruits := fruits w;
     bombs := bombs w; specialFruits := specialFruits w; slicedFruits := v;
     bombFlash := bombFlash w; activeEffect := activeEffect w;
     timeScale := timeScale w; lastSpawnRef := lastSpawnRef w;
     lastComboTimeRef := lastComboTimeRef w; waveRef := waveRef w;
     effectTimeoutRef := effectTimeoutRef w;
     spawnsSinceSpecialRef := spawnsSinceSpecialRef w;
     currentWave := currentWave w;
     showWaveAnnouncement := showWaveAnnouncement w;
     criticalFlash := criticalFlash w; timers := timers w;
     nextTimerId := nextTimerId w; storage := storage w;
     randomCalls := randomCalls w; stateLog := stateLog w |}.

Definition set_bombFlash (v : bool) (w : World) : World :=
  {| gameState := gameState w; stats := stats w; fruits := fruits w;
     bombs := bombs w; specialFruits := specialFruits w;
     slicedFruits := slicedFruits w; bombFlash := v;
     activeEffect := activeEffect w; timeScale := timeScale w;
     lastSpawnRef := lastSpawnRef w; lastComboTimeRef := lastComboTimeRef w;
     waveRef := waveRef w; effectTimeoutRef := effectTimeoutRef w;
     spawnsSinceSpecialRef := spawnsSinceSpecialRef w;
     currentWave := currentWave w;
     showWaveAnnouncement := showWaveAnnouncement w;
     criticalFlash := criticalFlash w; timers := timers w;
     nextTimerId := nextTimerId w; storage := storage w;
     randomCalls := randomCalls w; stateLog := stateLog w |}.

Definition set_activeEffect (v : option SpecialFruitType) (w : World) : World :=
  {| gameState := gameState w; stats := stats w; fruits := fruits w;
     bombs := bombs w; specialFruits := specialFruits w;
     slicedFruits := slicedFruits w; bombFlash := bombFlash w;
     activeEffect := v; timeScale := timeScale w;
     lastSpawnRef := lastSpawnRef w; lastComboTimeRef := lastComboTimeRef w;
     waveRef := waveRef w; effectTimeoutRef := effectTimeoutRef w;
     spawnsSinceSpecialRef := spawnsSinceSpecialRef w;
     currentWave := currentWave w;
     showWaveAnnouncement := showWaveAnnouncement w;
     criticalFlash := criticalFlash w; timers := timers w;
     nextTimerId := nextTimerId w; storage := storage w;
     randomCalls := randomCalls w; stateLog := stateLog w |}.

Definition set_timeScale (v : JS.number) (w : World) : World :=
  {| gameState := gameState w; stats := stats w; fruits := fruits w;
     bombs := bombs w; specialFruits := specialFruits w;
     slicedFruits := slicedFruits w; bombFlash := bombFlash w;
     activeEffect := activeEffect w; timeScale := v;
     lastSpawnRef := lastSpawnRef w; lastComboTimeRef := lastComboTimeRef w;
     waveRef := waveRef w; effectTimeoutRef := effectTimeoutRef w;
     spawnsSinceSpecialRef := spawnsSinceSpecialRef w;
     currentWave := currentWave w;
     showWaveAnnouncement := showWaveAnnouncement w;
     criticalFlash := criticalFlash w; timers := timers w;
     nextTimerId := nextTimerId w; storage := storage w;
     randomCalls := randomCalls w; stateLog := stateLog w |}.

Definition set_lastSpawnRef (v : Z) (w : World) : World :=
  {| gameState := gameState w; stats := stats w; fruits := fruits w;
     bombs := bombs w; specialFruits := specialFruits w;
     slicedFruits := slicedFruits w; bombFlash := bombFlash w;
     activeEffect := activeEffect w; timeScale := timeScale w;
     lastSpawnRef := v; lastComboTimeRef := lastComboTimeRef w;
     waveRef := waveRef w; effectTimeoutRef := effectTimeoutRef w;
     spawnsSinceSpecialRef := spawnsSinceSpecialRef w;
     currentWave := currentWave w;
     showWaveAnnouncement := showWaveAnnouncement w;
     criticalFlash := criticalFlash w; timers := timers w;
     nextTimerId := nextTimerId w; storage := storage w;
     randomCalls := randomCalls w; stateLog := stateLog w |}.

Definition set_lastComboTimeRef (v : Z) (w : World) : World :=
  {| gameState := gameState w; stats := stats w; fruits := fruits w;
     bombs := bombs w; specialFruits := specialFruits w;
     slicedFruits := slicedFruits w; bombFlash := bombFlash w;
     activeEffect := activeEffect w; timeScale := timeScale w;
     lastSpawnRef := lastSpawnRef w; lastComboTimeRef := v;
     waveRef := waveRef w; effectTimeoutRef := effectTimeoutRef w;
     spawnsSinceSpecialRef := spawnsSinceSpecialRef w;
     currentWave := currentWave w;
     showWaveAnnouncement := showWaveAnnouncement w;
     criticalFlash := criticalFlash w; timers := timers w;
     nextTimerId := nextTimerId w; storage := storage w;
     randomCalls := randomCalls w; stateLog := stateLog w |}.

Definition set_waveRef (v : Z) (w : World) : World :=
  {| gameState := gameState w; stats := stats w; fruits := fruits w;
     bombs := bombs w; specialFruits := specialFruits w;
     slicedFruits := slicedFruits w; bombFlash := bombFlash w;
     activeEffect := activeEffect w; timeScale := timeScale w;
     lastSpawnRef := lastSpawnRef w; lastComboTimeRef := lastComboTimeRef w;
     waveRef := v; effectTimeoutRef := effectTimeoutRef w;
     spawnsSinceSpecialRef := spawnsSinceSpecialRef w;
     currentWave := currentWave w;
     showWaveAnnouncement := showWaveAnnouncement w;
     criticalFlash := criticalFlash w; timers := timers w;
     nextTimerId := nextTimerId w; storage := storage w;
     randomCalls := randomCalls w; stateLog := stateLog w |}.

Definition set_effectTimeoutRef (v : option nat) (w : World) : World :=
  {| gameState := gameState w; stats := stats w; fruits := fruits w;
     bombs := bombs w; specialFruits := specialFruits w;
     slicedFruits := slicedFruits w; bombFlash := bombFlash w;
     activeEffect := activeEffect w; timeScale := timeScale w;
     lastSpawnRef := lastSpawnRef w; lastComboTimeRef := lastComboTimeRef w;
     waveRef := waveRef w; effectTimeoutRef := v;
     spawnsSinceSpecialRef := spawnsSinceSpecialRef w;
     currentWave := currentWave w;
     showWaveAnnouncement := showWaveAnnouncement w;
     criticalFlash := criticalFlash w; timers := timers w;
     nextTimerId := nextTimerId w; storage := storage w;
     randomCalls := randomCalls w; stateLog := stateLog w |}.

Definition set_spawnsSinceSpecialRef (v : Z) (w : World) : World :=
  {| gameState := gameState w; stats := stats w; fruits := fruits w;
     bombs := bombs w; specialFruits := specialFruits w;
     slicedFruits := slicedFruits w; bombFlash := bombFlash w;
     activeEffect := activeEffect w; timeScale := timeScale w;
     lastSpawnRef := lastSpawnRef w; lastComboTimeRef := lastComboTimeRef w;
     waveRef := waveRef w; effectTimeoutRef := effectTimeoutRef w;
     spawnsSinceSpecialRef := v; currentWave := currentWave w;
     showWaveAnnouncement := showWaveAnnouncement w;
     criticalFlash := criticalFlash w; timers := timers w;
     nextTimerId := nextTimerId w; storage := storage w;
     randomCalls := randomCalls w; stateLog := stateLog w |}.

Definition set_currentWave (v : Z) (w : World) : World :=
  {| gameState := gameState w; stats := stats w; fruits := fruits w;
     bombs := bombs w; specialFruits := specialFruits w;
     slicedFruits := slicedFruits w; bombFlash := bombFlash w;
     activeEffect := activeEffect w; timeScale := timeScale w;
     lastSpawnRef := lastSpawnRef w; lastComboTimeRef := lastComboTimeRef w;
     waveRef := waveRef w; effectTimeoutRef := effectTimeoutRef w;
     spawnsSinceSpecialRef := spawnsSinceSpecialRef w; currentWave := v;
     showWaveAnnouncement := showWaveAnnouncement w;
     criticalFlash := criticalFlash w; timers := timers w;
     nextTimerId := nextTimerId w; storage := storage w;
     randomCalls := randomCalls w; stateLog := stateLog w |}.

Definition set_showWaveAnnouncement (v : bool) (w : World) : World :=
  {| gameState := gameState w; stats := stats w; fruits := fruits w;
     bombs := bombs w; specialFruits := specialFruits w;
     slicedFruits := slicedFruits w; bombFlash := bombFlash w;
     activeEffect := activeEffect w; timeScale := timeScale w;
     lastSpawnRef := lastSpawnRef w; lastComboTimeRef := lastComboTimeRef w;
     waveRef := waveRef w; effectTimeoutRef := effectTimeoutRef w;
     spawnsSinceSpecialRef := spawnsSinceSpecialRef w;
     currentWave := currentWave w; showWaveAnnouncement := v;
     criticalFlash := criticalFlash w; timers := timers w;
     nextTimerId := nextTimerId w; storage := storage w;
     randomCalls := randomCalls w; stateLog := stateLog w |}.

Definition set_criticalFlash (v : bool) (w : World) : World :=
  {| gameState := gameState w; stats := stats w; fruits := fruits w;
     bombs := bombs w; specialFruits := specialFruits w;
     slicedFruits := slicedFruits w; bombFlash := bombFlash w;
     activeEffect := activeEffect w; timeScale := timeScale w;
     lastSpawnRef := lastSpawnRef w; lastComboTimeRef := lastComboTimeRef w;
     waveRef := waveRef w; effectTimeoutRef := effectTimeoutRef w;
     spawnsSinceSpecialRef := spawnsSinceSpecialRef w;
     currentWave := currentWave w;
     showWaveAnnouncement := showWaveAnnouncement w; criticalFlash := v;
     timers := timers w; nextTimerId := nextTimerId w; storage := storage w;
     randomCalls := randomCalls w; stateLog := stateLog w |}.

Definition set_timers (v : list Timer) (w : World) : World :=
  {| gameState := gameState w; stats := stats w; fruits := fruits w;
     bombs := bombs w; specialFruits := specialFruits w;
     slicedFruits := slicedFruits w; bombFlash := bombFlash w;
     activeEffect := activeEffect w; timeScale := timeScale w;
     lastSpawnRef := lastSpawnRef w; lastComboTimeRef := lastComboTimeRef w;
     waveRef := waveRef w; effectTimeoutRef := effectTimeoutRef w;
     spawnsSinceSpecialRef := spawnsSinceSpecialRef w;
     currentWave := currentWave w;
     showWaveAnnouncement := showWaveAnnouncement w;
     criticalFlash := criticalFlash w; timers := v;
     nextTimerId := nextTimerId w; storage := storage w;
     randomCalls := randomCalls w; stateLog := stateLog w |}.

Definition set_nextTimerId (v : nat) (w : World) : World :=
  {| gameState := gameState w; stats := stats w; fruits := fruits w;
     bombs := bombs w; specialFruits := specialFruits w;
     slicedFruits := slicedFruits w; bombFlash := bombFlash w;
     activeEffect := activeEffect w; timeScale := timeScale w;
     lastSpawnRef := lastSpawnRef w; lastComboTimeRef := lastComboTimeRef w;
     waveRef := waveRef w; effectTimeoutRef := effectTimeoutRef w;
     spawnsSinceSpecialRef := spawnsSinceSpecialRef w;
     currentWave := currentWave w;
     showWaveAnnouncement := showWaveAnnouncement w;
     criticalFlash := criticalFlash w; timers := timers w; nextTimerId := v;
     storage := storage w; randomCalls := randomCalls w;
     stateLog := stateLog w |}.

Definition set_storage (v : Storage) (w : World) : World :=
  {| gameState := gameState w; stats := stats w; fruits := fruits w;
     bombs := bombs w; specialFruits := specialFruits w;
     slicedFruits := slicedFruits w; bombFlash := bombFlash w;
     activeEffect := activeEffect w; timeScale := timeScale w;
     lastSpawnRef := lastSpawnRef w; lastComboTimeRef := lastComboTimeRef w;
     waveRef := waveRef w; effectTimeoutRef := effectTimeoutRef w;
     spawnsSinceSpecialRef := spawnsSinceSpecialRef w;
     currentWave := currentWave w;
     showWaveAnnouncement := showWaveAnnouncement w;
     criticalFlash := criticalFlash w; timers := timers w;
     nextTimerId := nextTimerId w; storage := v;
     randomCalls := randomCalls w; stateLog := stateLog w |}.

Definition set_randomCalls (v : nat) (w : World) : World :=
  {| gameState := gameState w; stats := stats w; fruits := fruits w;
     bombs := bombs w; specialFruits := specialFruits w;
     slicedFruits := slicedFruits w; bombFlash := bombFlash w;
     activeEffect := activeEffect w; timeScale := timeScale w;
     lastSpawnRef := lastSpawnRef w; lastComboTimeRef := lastComboTimeRef w;
     waveRef := waveRef w; effectTimeoutRef := effectTimeoutRef w;
     spawnsSinceSpecialRef := spawnsSinceSpecialRef w;
     currentWave := currentWave w;
     showWaveAnnouncement := showWaveAnnouncement w;
     criticalFlash := criticalFlash w; timers := timers w;
     nextTimerId := nextTimerId w; storage := storage w; randomCalls := v;
     stateLog := stateLog w |}.

Definition set_stateLog (v : list GameState) (w : World) : World :=
  {| gameState := gameState w; stats := stats w; fruits := fruits w;
     bombs := bombs w; specialFruits := specialFruits w;
     slicedFruits := slicedFruits w; bombFlash := bombFlash w;
     activeEffect := activeEffect w; timeScale := timeScale w;
     lastSpawnRef := lastSpawnRef w; lastComboTimeRef := lastComboTimeRef w;
     waveRef := waveRef w; effectTimeoutRef := effectTimeoutRef w;
     spawnsSinceSpecialRef := spawnsSinceSpecialRef w;
     currentWave := currentWave w;
     showWaveAnnouncement := showWaveAnnouncement w;
     criticalFlash := criticalFlash w; timers := timers w;
     nextTimerId := nextTimerId w; storage := storage w;
     randomCalls := randomCalls w; stateLog := v |}.

(** ** Effects

    A handler either completes with a new state or lets an exception
    escape.  React applies the functional updaters handed to [setStats],
    [setFruits], ... in the order of the calls; the embedding applies each
    updater at its call, which gives the same final state.  An exception
    raised inside an updater is caught nowhere in the engine (React raises
    it again when it applies the update): it ends the outcome of the whole
    handler as [Uncaught]. *)

Inductive Exception := StorageError.

Inductive Outcome :=
  | Normal (w : World)
  | Uncaught (e : Exception).

Definition andThen (o : Outcome) (k : World -> Outcome) : Outcome :=
  match o with
  | Normal w => k w
  | Uncaught e => Uncaught e
  end.

Notation "o >>= k" := (andThen o k) (at level 50, left associativity).

(** [list.forEach(body)]. *)
Fixpoint forEach {A : Type} (l : list A) (body : A -> World -> Outcome)
  (w : World) : Outcome :=
  match l with
  | [] => Normal w
  | x :: rest => body x w >>= forEach rest body
  end.

(** [localStorage.setItem(key, v.toString())] on the storage itself:
    [None] when the call raises. *)
Definition storageSetItem (v : Z) (st : Storage) : option Storage :=
  if writable st
  then Some {| persisted := Some v; writable := true;
               writeLog := v :: writeLog st |}
  else None.

(** [localStorage.setItem('fruitNinjaHighScore', v.toString())], as the
    engine calls it: outside any [try]. *)
Definition setItem (v : Z) (w : World) : Outcome :=
  match storageSetItem v (storage w) with
  | Some st => Normal (set_storage st w)
  | None => Uncaught StorageError
  end.

(** [setTimeout(cb, delay)], returning the identifier of the timer. *)
Definition setTimeout (cb : Callback) (delay : Z) (w : World) : nat * World :=
  let id := nextTimerId w in
  (id, set_nextTimerId (S id)
         (set_timers (timers w ++ [{| timer_id := id; timer_delay := delay;
                                      timer_callback := cb |}]) w)).

Definition clearTimeout (id : nat) (w : World) : World :=
  set_timers (filter (fun t => negb (Nat.eqb (timer_id t) id)) (timers w)) w.

(** [if (effectTimeoutRef.current) clearTimeout(effectTimeoutRef.current)]. *)
Definition clearEffectTimeout (w : World) : World :=
  match effectTimeoutRef w with
  | Some id => clearTimeout id w
  | None => w
  end.

Definition setGameState (s : GameState) (w : World) : World :=
  set_stateLog (s :: stateLog w) (set_gameState s w).

(** The number of [setGameState('gameover')] calls since the last
    [setGameState('playing')], that is, in the current run of the game. *)
Fixpoint gameOverTriggers (log : list GameState) : nat :=
  match log with
  | [] => 0%nat
  | playing :: _ => 0%nat
  | gameover :: rest => S (gameOverTriggers rest)
  | menu :: rest => gameOverTriggers rest
  end.

(** The last five points of the trail, paired into (at most four)
    consecutive segments: [i] from [max(0, length - 5)] to [length - 2]. *)
Definition lastSegments (trail : list BladePoint)
  : list (BladePoint * BladePoint) :=
  let pts := skipn (List.length trail - 5) trail in
  combine pts (tl pts).

(** The number of iterations of a loop [for (i = 0; i < base + Math.floor(x);
    i++)].  A bound that is NaN runs no iteration; [x] is a product with a
    value of [Math.random()], which is finite, so the bound is not infinite. *)
Definition iterations (base : Z) (fl : option Z) : nat :=
  match fl with
  | Some n => Z.to_nat (base + n)
  | None => 0%nat
  end.

(** [for (let i = from; i < from + count; i++) setTimeout(cb, i * gap)]. *)
Fixpoint stagger (cb : Callback) (gap : Z) (count : nat) (i : Z) (w : World)
  : World :=
  match count with
  | O => w
  | S c => stagger cb gap c (i + 1) (snd (setTimeout cb (i * gap) w))
  end.

Definition filterOutId {A : Type} (idOf : A -> string) (id : string)
  (l : list A) : list A :=
  filter (fun x => negb (String.eqb (idOf x) id)) l.

(** ** The engine *)

(** What the hook is instantiated with: the size of the canvas and the
    functions of the host it calls.  [Math_random n] is the [n]-th value
    returned by [Math.random()], counted from 0; [toString36 r] is
    [r.toString(36).substr(2, 9)]. *)
Class Env := {
  canvasWidth : JS.number;
  canvasHeight : JS.number;
  atan2 : JS.number -> JS.number -> JS.number;
  Math_random : nat -> JS.number;
  toString36 : JS.number -> string
}.

Section Engine.

Context {env : Env}.

Definition random (w : World) : JS.number * World :=
  (Math_random (randomCalls w), set_randomCalls (S (randomCalls w)) w).

Definition generateId (w : World) : string * World :=
  let '(r, w) := random w in (toString36 r, w).

(** Particles and score popups are cosmetic and written only; of
    [createParticles] and [addScorePopup] the embedding keeps the calls
    of [Math.random] they make (five per particle, one per popup). *)
Definition drawRandom (n : nat) (w : World) : World :=
  set_randomCalls (n + randomCalls w) w.

Definition createParticles (w : World) : World := drawRandom 60 w.
Definition createSpecialParticles (w : World) : World := drawRandom 100 w.
Definition addScorePopup (w : World) : World := drawRandom 1 w.

(** The literal [0.5]. *)
Definition pointFive : JS.number := JS.dec 5 1.

(** [spawnFruit()].  [Math.random()] lies in [0, 1), so the index into
    [FRUIT_TYPES] is one of 0 to 5 and the fallbacks below are not taken. *)
Definition spawnFruit (w : World) : World :=
  let '(r, w) := random w in
  let type := match JS.floor (r * JS.ofZ 6)%js with
              | Some i => nth (Z.to_nat i) FRUIT_TYPES apple
              | None => apple
              end in
  let '(r, w) := random w in
  let spawnX := (r * (canvasWidth - JS.ofZ 100) + JS.ofZ 50)%js in
  let '(r, w) := random w in
  let targetX :=
    (canvasWidth / JS.ofZ 2 + (r - pointFive) * canvasWidth * pointFive)%js in
  let '(r, w) := random w in
  let velocityX :=
    ((targetX - spawnX) * JS.dec 2 2 + (r - pointFive) * JS.ofZ 2)%js in
  let '(id, w) := generateId w in
  let '(r, w) := random w in
  let velocityY :=
    (- (JS.ofZ 14 + r * JS.ofZ 6 + JS.ofZ (waveRef w) * pointFive))%js in
  let '(r, w) := random w in
  let rotation := (r * JS.ofZ 360)%js in
  let '(r, w) := random w in
  let rotationSpeed := ((r - pointFive) * JS.ofZ 8)%js in
  let fruit :=
    {| fruit_id := id; fruit_type := type; fruit_x := spawnX;
       fruit_y := (canvasHeight + JS.ofZ 50)%js;
       fruit_velocityX := velocityX; fruit_velocityY := velocityY;
       fruit_rotation := rotation; fruit_rotationSpeed := rotationSpeed;
       fruit_radius := match type with
                       | watermelon | pineapple => JS.ofZ 50
                       | _ => JS.ofZ 35
                       end;
       fruit_sliced := false |} in
  set_fruits (fruits w ++ [fruit]) w.

Definition spawnBomb (w : World) : World :=
  let '(r, w) := random w in
  let spawnX := (r * (canvasWidth - JS.ofZ 100) + JS.ofZ 50)%js in
  let '(r, w) := random w in
  let targetX :=
    (canvasWidth / JS.ofZ 2 + (r - pointFive) * canvasWidth * pointFive)%js in
  let '(r, w) := random w in
  let velocityX :=
    ((targetX - spawnX) * JS.dec 2 2 + (r - pointFive) * JS.ofZ 2)%js in
  let '(id, w) := generateId w in
  let '(r, w) := random w in
  let velocityY := (- (JS.ofZ 14 + r * JS.ofZ 5))%js in
  let '(r, w) := random w in
  let rotation := (r * JS.ofZ 360)%js in
  let '(r, w) := random w in
  let rotationSpeed := ((r - pointFive) * JS.ofZ 6)%js in
  let bomb :=
    {| bomb_id := id; bomb_x := spawnX;
       bomb_y := (canvasHeight + JS.ofZ 50)%js;
       bomb_velocityX := velocityX; bomb_velocityY := velocityY;
       bomb_rotation := rotation; bomb_rotationSpeed := rotationSpeed;
       bomb_radius := JS.ofZ 40; bomb_sliced := false |} in
  set_bombs (bombs w ++ [bomb]) w.

Definition spawnSpecialFruit (type : SpecialFruitType) (w : World) : World :=
  let '(r, w) := random w in
  let spawnX := (r * (canvasWidth - JS.ofZ 100) + JS.ofZ 50)%js in
  let '(r, w) := random w in
  let targetX :=
    (canvasWidth / JS.ofZ 2 + (r - pointFive) * canvasWidth * JS.dec 3 1)%js in
  let velocityX := ((targetX - spawnX) * JS.dec 2 2)%js in
  let '(id, w) := generateId w in
  let '(r, w) := random w in
  let velocityY := (- (JS.ofZ 14 + r * JS.ofZ 4))%js in
  let '(r, w) := random w in
  let rotation := (r * JS.ofZ 360)%js in
  let '(r, w) := random w in
  let rotationSpeed := ((r - pointFive) * JS.ofZ 6)%js in
  let special :=
    {| special_id := id; specialType := type; special_x := spawnX;
       special_y := (canvasHeight + JS.ofZ 50)%js;
       special_velocityX := velocityX; special_velocityY := velocityY;
       special_rotation := rotation;
       special_rotationSpeed := rotationSpeed;
       special_radius := JS.ofZ 45 |} in
  set_specialFruits (specialFruits w ++ [special]) w.

(** [activateFrenzy]; [captured] is the [gameState] its closure holds. *)
Definition activateFrenzy (captured : GameState) (w : World) : World :=
  let w := clearEffectTimeout w in
  let w := set_activeEffect (Some frenzy) w in
  let w := set_timeScale (JS.dec 3 1) w in
  let w := stagger (CbFrenzySpawn captured) 80 16 0 w in
  let '(id, w) := setTimeout CbEndEffect 4000 w in
  set_effectTimeoutRef (Some id) w.

Definition activateFreeze (w : World) : World :=
  let w := clearEffectTimeout w in
  let w := set_activeEffect (Some freeze) w in
  let w := set_timeScale (JS.dec 2 1) w in
  let '(id, w) := setTimeout CbEndEffect 3000 w in
  set_effectTimeoutRef (Some id) w.

(** The two halves [createSlicedFruit] appends; [now] is [Date.now()]. *)
Definition leftHalf (id : string) (fruit : Fruit) (sliceAngle : JS.number)
  (now : Z) : SlicedFruit :=
  {| sf_id := id; sf_type := fruit_type fruit;
     sf_x := fruit_x fruit; sf_y := fruit_y fruit;
     sf_velocityX := (fruit_velocityX fruit - JS.ofZ 3)%js;
     sf_velocityY := (fruit_velocityY fruit - JS.ofZ 2)%js;
     sf_rotation := fruit_rotation fruit;
     sf_rotationSpeed := JS.ofZ (-8);
     sf_radius := fruit_radius fruit; sf_half := half_left;
     sf_sliceAngle := sliceAngle; sf_createdAt := now |}.

Definition rightHalf (id : string) (fruit : Fruit) (sliceAngle : JS.number)
  (now : Z) : SlicedFruit :=
  {| sf_id := id; sf_type := fruit_type fruit;
     sf_x := fruit_x fruit; sf_y := fruit_y fruit;
     sf_velocityX := (fruit_velocityX fruit + JS.ofZ 3)%js;
     sf_velocityY := (fruit_velocityY fruit - JS.ofZ 2)%js;
     sf_rotation := fruit_rotation fruit;
     sf_rotationSpeed := JS.ofZ 8;
     sf_radius := fruit_radius fruit; sf_half := half_right;
     sf_sliceAngle := sliceAngle; sf_createdAt := now |}.

Definition createSlicedFruit (fruit : Fruit) (sliceAngle : JS.number)
  (now : Z) (w : World) : World :=
  let '(idL, w) := generateId w in
  let '(idR, w) := generateId w in
  set_slicedFruits
    (slicedFruits w ++ [leftHalf idL fruit sliceAngle now;
                        rightHalf idR fruit sliceAngle now]) w.

Definition sliceSpecialFruit (captured : GameState) (special : SpecialFruit)
  (w : World) : World :=
  let w := createSpecialParticles w in
  let w := addScorePopup w in
  let prev := stats w in
  let w := set_stats {| score := score prev + 50; lives := lives prev;
                        combo := combo prev; maxCombo := maxCombo prev;
                        fruitsSliced := fruitsSliced prev;
                        highScore := highScore prev |} w in
  let w := set_specialFruits
             (filterOutId special_id (special_id special) (specialFruits w))
             w in
  match specialType special with
  | frenzy => activateFrenzy captured w
  | freeze => activateFreeze w
  end.

(** The body of the updater [sliceFruit] hands to [setStats]. *)
Definition newComboOf (isPartOfCombo : bool) (prev : GameStats) : Z :=
  if isPartOfCombo then combo prev + 1 else 1.

Definition comboMultiplierOf (isPartOfCombo : bool) (prev : GameStats) : Z :=
  Z.min (newComboOf isPartOfCombo prev) 8.

Definition isPartOfComboAt (now : Z) (w : World) : bool :=
  let timeSinceLastSlice := now - lastComboTimeRef w in
  (timeSinceLastSlice <? COMBO_WINDOW) && (lastComboTimeRef w >? 0).

Definition fruitStatsUpdate (basePoints : Z) (isPartOfCombo : bool)
  (w : World) : Outcome :=
  let prev := stats w in
  let newCombo := newComboOf isPartOfCombo prev in
  let comboMultiplier := comboMultiplierOf isPartOfCombo prev in
  let points := basePoints * comboMultiplier in
  let newScore := score prev + points in
  let newHighScore := Z.max newScore (highScore prev) in
  (if newHighScore >? highScore prev
   then setItem newHighScore w else Normal w) >>= fun w =>
  Normal (set_stats {| score := newScore; lives := lives prev;
                       combo := newCombo;
                       maxCombo := Z.max newCombo (maxCombo prev);
                       fruitsSliced := fruitsSliced prev + 1;
                       highScore := newHighScore |} w).

(** [sliceFruit(fruit, sliceAngle)]; [now] is what [Date.now()] returns. *)
Definition sliceFruit (fruit : Fruit) (sliceAngle : JS.number) (now : Z)
  (w : World) : Outcome :=
  let isPartOfCombo := isPartOfComboAt now w in
  let w := set_lastComboTimeRef now w in
  let basePoints := FRUIT_POINTS (fruit_type fruit) in
  fruitStatsUpdate basePoints isPartOfCombo w >>= fun w =>
  let w := createParticles w in
  let w := createSlicedFruit fruit sliceAngle now w in
  let w := addScorePopup w in
  Normal (set_fruits (filterOutId fruit_id (fruit_id fruit) (fruits w)) w).

Definition bombStatsUpdate (w : World) : Outcome :=
  let prev := stats w in
  let newHighScore := Z.max (score prev) (highScore prev) in
  (if newHighScore >? highScore prev
   then setItem newHighScore w else Normal w) >>= fun w =>
  Normal (set_stats {| score := score prev; lives := 0;
                       combo := combo prev; maxCombo := maxCombo prev;
                       fruitsSliced := fruitsSliced prev;
                       highScore := newHighScore |} w).

Definition sliceBomb (w : World) : Outcome :=
  let w := set_bombFlash true w in
  let w := snd (setTimeout CbBombFlashOff 300 w) in
  bombStatsUpdate w >>= fun w =>
  Normal (setGameState gameover w).

Definition hits (p1 p2 : BladePoint) (cx cy r : JS.number) : bool :=
  lineCircleIntersection (bp_x p1) (bp_y p1) (bp_x p2) (bp_y p2) cx cy r.

(** The body of the loop of [checkCollisions] for one segment.  The lists
    and [activeEffect] are those of the render [snap] the callback closes
    over; the effects act on the current state. *)
Definition collideSegment (snap : World) (now : Z)
  (seg : BladePoint * BladePoint) (w : World) : Outcome :=
  let '(p1, p2) := seg in
  let sliceAngle :=
    atan2 (bp_y p2 - bp_y p1)%js (bp_x p2 - bp_x p1)%js in
  forEach (fruits snap) (fun fruit w =>
    if negb (fruit_sliced fruit)
       && hits p1 p2 (fruit_x fruit) (fruit_y fruit)
            (fruit_radius fruit * JS.dec 115 2)%js
    then sliceFruit fruit sliceAngle now w
    else Normal w) w >>= fun w =>
  forEach (specialFruits snap) (fun special w =>
    if hits p1 p2 (special_x special) (special_y special)
         (special_radius special * JS.dec 12 1)%js
    then Normal (sliceSpecialFruit (gameState snap) special w)
    else Normal w) w >>= fun w =>
  match activeEffect snap with
  | Some frenzy => Normal w
  | _ =>
      forEach (bombs snap) (fun bomb w =>
        if negb (bomb_sliced bomb)
           && hits p1 p2 (bomb_x bomb) (bomb_y bomb) (bomb_radius bomb)
        then sliceBomb w
        else Normal w) w
  end.

Definition checkCollisions (snap : World) (trail : list BladePoint)
  (isSwiping : bool) (now : Z) (w : World) : Outcome :=
  if negb isSwiping || (List.length trail <? 2)%nat then Normal w
  else forEach (lastSegments trail) (collideSegment snap now) w.

(** *** The physics update *)

Definition stepFruit (ts g : JS.number) (f : Fruit) : Fruit :=
  {| fruit_id := fruit_id f; fruit_type := fruit_type f;
     fruit_x := (fruit_x f + fruit_velocityX f * ts)%js;
     fruit_y := (fruit_y f + fruit_velocityY f * ts)%js;
     fruit_velocityX := fruit_velocityX f;
     fruit_velocityY := (fruit_velocityY f + g)%js;
     fruit_rotation := (fruit_rotation f + fruit_rotationSpeed f * ts)%js;
     fruit_rotationSpeed := fruit_rotationSpeed f;
     fruit_radius := fruit_radius f; fruit_sliced := fruit_sliced f |}.

Definition stepBomb (ts g : JS.number) (b : Bomb) : Bomb :=
  {| bomb_id := bomb_id b;
     bomb_x := (bomb_x b + bomb_velocityX b * ts)%js;
     bomb_y := (bomb_y b + bomb_velocityY b * ts)%js;
     bomb_velocityX := bomb_velocityX b;
     bomb_velocityY := (bomb_velocityY b + g)%js;
     bomb_rotation := (bomb_rotation b + bomb_rotationSpeed b * ts)%js;
     bomb_rotationSpeed := bomb_rotationSpeed b;
     bomb_radius := bomb_radius b; bomb_sliced := bomb_sliced b |}.

Definition stepSpecial (ts g : JS.number) (s : SpecialFruit) : SpecialFruit :=
  {| special_id := special_id s; specialType := specialType s;
     special_x := (special_x s + special_velocityX s * ts)%js;
     special_y := (special_y s + special_velocityY s * ts)%js;
     special_velocityX := special_velocityX s;
     special_velocityY := (special_velocityY s + g)%js;
     special_rotation :=
       (special_rotation s + special_rotationSpeed s * ts)%js;
     special_rotationSpeed := special_rotationSpeed s;
     special_radius := special_radius s |}.

Definition stepSliced (ts g : JS.number) (s : SlicedFruit) : SlicedFruit :=
  {| sf_id := sf_id s; sf_type := sf_type s;
     sf_x := (sf_x s + sf_velocityX s * ts)%js;
     sf_y := (sf_y s + sf_velocityY s * ts)%js;
     sf_velocityX := sf_velocityX s;
     sf_velocityY := (sf_velocityY s + g)%js;
     sf_rotation := (sf_rotation s + sf_rotationSpeed s * ts)%js;
     sf_rotationSpeed := sf_rotationSpeed s;
     sf_radius := sf_radius s; sf_half := sf_half s;
     sf_sliceAngle := sf_sliceAngle s; sf_createdAt := sf_createdAt s |}.

(** The lower bound: [canvasHeight + 100]. *)
Definition lowerBound : JS.number := (canvasHeight + JS.ofZ 100)%js.

(** A moved fruit that fell off the screen: [newFruit.y > canvasHeight + 100]. *)
Definition fellOff (newFruit : Fruit) : bool :=
  JS.gt (fruit_y newFruit) lowerBound.

(** The loop of the [setFruits] updater: the fruits kept, moved, and the
    number [missedCount] of those dropped. *)
Fixpoint sweepFruits (ts g : JS.number) (prev : list Fruit)
  : list Fruit * Z :=
  match prev with
  | [] => ([], 0)
  | fruit :: rest =>
      let newFruit := stepFruit ts g fruit in
      let '(updated, missedCount) := sweepFruits ts g rest in
      if fellOff newFruit then (updated, missedCount + 1)
      else (newFruit :: updated, missedCount)
  end.

(** The updater handed to [setStats] when [missedCount > 0]. *)
Definition missStatsUpdate (missedCount : Z) (w : World) : Outcome :=
  let prev := stats w in
  let newLives := lives prev - missedCount in
  if newLives <=? 0 then
    let newHighScore := Z.max (score prev) (highScore prev) in
    setItem newHighScore w >>= fun w =>
    let w := setGameState gameover w in
    Normal (set_stats {| score := score prev; lives := 0;
                         combo := combo prev; maxCombo := maxCombo prev;
                         fruitsSliced := fruitsSliced prev;
                         highScore := newHighScore |} w)
  else
    Normal (set_stats {| score := score prev; lives := newLives;
                         combo := combo prev; maxCombo := maxCombo prev;
                         fruitsSliced := fruitsSliced prev;
                         highScore := highScore prev |} w).

Definition updateFruits (ts g : JS.number) (w : World) : Outcome :=
  let '(updated, missedCount) := sweepFruits ts g (fruits w) in
  (if missedCount >? 0 then missStatsUpdate missedCount w else Normal w)
  >>= fun w => Normal (set_fruits updated w).

Definition updateOthers (ts g : JS.number) (now : Z) (w : World) : World :=
  let w := set_bombs
             (filter (fun b => JS.lt (bomb_y b) lowerBound)
                (map (stepBomb ts g) (bombs w))) w in
  let w := set_specialFruits
             (filter (fun s => JS.lt (special_y s) lowerBound)
                (map (stepSpecial ts g) (specialFruits w))) w in
  set_slicedFruits
    (filter (fun s => now - sf_createdAt s <? SLICED_FRUIT_LIFETIME)
       (map (stepSliced ts g) (slicedFruits w))) w.

(** *** The spawner (the tail of [updatePhysics]) *)

Definition criticalThrow (w : World) : World :=
  let '(r, w) := random w in
  let criticalCount := iterations 4 (JS.floor (r * JS.ofZ 2)%js) in
  let '(_, w) := random w in            (* baseX, not used afterwards *)
  let w := stagger CbSpawnFruit 60 criticalCount 0 w in
  let w := set_criticalFlash true w in
  snd (setTimeout CbCriticalFlashOff 400 w).

Definition regularSpawn (w : World) : World :=
  let '(r, w) := random w in
  let fruitCount :=
    iterations 1 (JS.floor (r * JS.ofZ (Z.min 3 (waveRef w)))%js) in
  let w := stagger CbSpawnFruit 100 fruitCount 0 w in
  let bombChance :=
    JS.min BOMB_CHANCE_MAX
      (BOMB_CHANCE_BASE + JS.ofZ (waveRef w) * JS.dec 3 2)%js in
  let '(r, w) := random w in
  if JS.lt r bombChance then spawnBomb w else w.

Definition maybeSpawnSpecial (w : World) : World :=
  let '(byChance, w) :=
    if waveRef w >=? SPECIAL_FRUIT_MIN_WAVE
    then let '(r, w) := random w in (JS.lt r SPECIAL_FRUIT_CHANCE, w)
    else (false, w) in
  let shouldSpawnSpecial :=
    byChance || (spawnsSinceSpecialRef w >=? GUARANTEED_SPECIAL_INTERVAL) in
  if shouldSpawnSpecial
  then set_spawnsSinceSpecialRef 0 (spawnSpecialFruit freeze w)
  else w.

Definition advanceWave (snap : World) (w : World) : World :=
  let newWave := fruitsSliced (stats snap) / 10 + 1 in
  if newWave >? waveRef w then
    let w := set_waveRef newWave w in
    let w := set_currentWave newWave w in
    let w := set_showWaveAnnouncement true w in
    snd (setTimeout CbWaveAnnouncementOff 2000 w)
  else w.

Definition spawner (snap : World) (now : Z) (w : World) : World :=
  match activeEffect snap with
  | Some frenzy => w
  | _ =>
      let spawnInterval :=
        Z.max SPAWN_INTERVAL_MIN (SPAWN_INTERVAL_BASE - waveRef w * 100) in
      if now - lastSpawnRef w >? spawnInterval then
        let w := set_lastSpawnRef now w in
        let w := set_spawnsSinceSpecialRef (spawnsSinceSpecialRef w + 1) w in
        let '(r, w) := random w in
        let w := if JS.lt r CRITICAL_THROW_CHANCE
                 then criticalThrow w else regularSpawn w in
        let w := maybeSpawnSpecial w in
        advanceWave snap w
      else w
  end.

(** [updatePhysics()]: [timeScale], [activeEffect] and [stats.fruitsSliced]
    are read from the render [snap] the callback closes over. *)
Definition updatePhysics (snap : World) (now : Z) (w : World) : Outcome :=
  let ts := timeScale snap in
  let adjustedGravity := (GRAVITY * ts)%js in
  updateFruits ts adjustedGravity w >>= fun w =>
  let w := updateOthers ts adjustedGravity now w in
  Normal (spawner snap now w).

(** *** Starting, leaving, timers, the frame loop *)

Definition startGame (w : World) : World :=
  let w := clearEffectTimeout w in
  let w := set_activeEffect None w in
  let w := set_timeScale (JS.ofZ 1) w in
  let w := setGameState playing w in
  let w := set_stats {| score := 0; lives := INITIAL_LIVES; combo := 0;
                        maxCombo := 0; fruitsSliced := 0;
                        highScore := highScore (stats w) |} w in
  let w := set_fruits [] w in
  let w := set_bombs [] w in
  let w := set_specialFruits [] w in
  let w := set_slicedFruits [] w in
  let w := set_lastSpawnRef 0 w in
  let w := set_lastComboTimeRef 0 w in
  let w := set_waveRef 1 w in
  let w := set_spawnsSinceSpecialRef 0 w in
  let w := set_currentWave 1 w in
  let w := set_showWaveAnnouncement false w in
  set_criticalFlash false w.

Definition returnToMenu (w : World) : World :=
  let w := clearEffectTimeout w in
  let w := set_activeEffect None w in
  let w := set_timeScale (JS.ofZ 1) w in
  let w := setGameState menu w in
  let w := set_fruits [] w in
  let w := set_bombs [] w in
  let w := set_specialFruits [] w in
  set_slicedFruits [] w.

Definition runCallback (cb : Callback) (w : World) : World :=
  match cb with
  | CbSpawnFruit => spawnFruit w
  | CbFrenzySpawn captured =>
      if GameState_eqb captured playing then spawnFruit w else w
  | CbEndEffect => set_timeScale (JS.ofZ 1) (set_activeEffect None w)
  | CbBombFlashOff => set_bombFlash false w
  | CbCriticalFlashOff => set_criticalFlash false w
  | CbWaveAnnouncementOff => set_showWaveAnnouncement false w
  end.

(** The host fires the pending timer [id]: the timer leaves the queue and
    its callback runs. *)
Definition fireTimer (id : nat) (w : World) : World :=
  match find (fun t => Nat.eqb (timer_id t) id) (timers w) with
  | Some t => runCallback (timer_callback t) (clearTimeout id w)
  | None => w
  end.

(** [gameLoop] of [FruitNinjaGame]: one animation frame. *)
Definition gameLoop (trail : list BladePoint) (isSwiping : bool) (now : Z)
  (w : World) : Outcome :=
  match gameState w with
  | playing =>
      checkCollisions w trail isSwiping now w >>= updatePhysics w now
  | _ => Normal w
  end.

(** What can happen to the hook.  The start button exists on the menu and
    on the game-over screen, the menu button on the game-over screen. *)
Inductive Event :=
  | Frame (trail : list BladePoint) (isSwiping : bool) (now : Z)
  | TimerFires (id : nat)
  | StartGame
  | ReturnToMenu.

Definition step (e : Event) (w : World) : Outcome :=
  match e with
  | Frame trail isSwiping now => gameLoop trail isSwiping now w
  | TimerFires id => Normal (fireTimer id w)
  | StartGame =>
      Normal (match gameState w with playing => w | _ => startGame w end)
  | ReturnToMenu =>
      Normal (match gameState w with gameover => returnToMenu w | _ => w end)
  end.

(** The state of the hook at its first render, over the storage [st]:
    [highScore] is [parseInt(localStorage.getItem(...) || '0')]. *)
Definition initialWorld (st : Storage) : World :=
  {| gameState := menu;
     stats := {| score := 0; lives := INITIAL_LIVES; combo := 0;
                 maxCombo := 0; fruitsSliced := 0;
                 highScore := match persisted st with
                              | Some v => v
                              | None => 0
                              end |};
     fruits := []; bombs := []; specialFruits := []; slicedFruits := [];
     bombFlash := false; activeEffect := None; timeScale := JS.ofZ 1;
     lastSpawnRef := 0; lastComboTimeRef := 0; waveRef := 1;
     effectTimeoutRef := None; spawnsSinceSpecialRef := 0;
     currentWave := 1; showWaveAnnouncement := false;
     criticalFlash := false; timers := []; nextTimerId := 1;
     storage := st; randomCalls := 0; stateLog := [] |}.

Inductive reachable : World -> Prop :=
  | reach_init : forall st, reachable (initialWorld st)
  | reach_step : forall e w w',
      reachable w -> step e w = Normal w' -> reachable w'.

End Engine.

(** ** Observations *)

(** The part of the state that scoring and game over are about. *)
Definition core (w : World)
  : GameStats * GameState * list GameState * Storage * Z :=
  (stats w, gameState w, stateLog w, storage w, lastComboTimeRef w).

(** What [f] sees in the state a handler ends in; [None] when an exception
    escapes the handler. *)
Definition observe {A : Type} (f : World -> A) (o : Outcome) : option A :=
  match o with
  | Normal w => Some (f w)
  | Uncaught _ => None
  end.

Definition livesOf (w : World) : Z := lives (stats w).
Definition scoreOf (w : World) : Z := score (stats w).

(** The number of fruits of [w] that a frame takes below the lower bound,
    at the time scale of the render [snap]: the [missedCount] of the frame. *)
Definition missedIn {env : Env} (snap w : World) : Z :=
  snd (sweepFruits (timeScale snap) (GRAVITY * timeScale snap)%js (fruits w)).

(** The misses of the frame exhaust the lives: there is a miss, and there
    are no more lives than misses. *)
Definition exhausts {env : Env} (snap w : World) : bool :=
  (0 <? missedIn snap w) && (livesOf w <=? missedIn snap w).

(** The events of a trace, in order. *)
Definition runEvents {env : Env} (es : list Event) (w : World) : Outcome :=
  forEach es step w.

(** The state a handler ends in, and the state [w0] when an exception
    escapes it. *)
Definition finalWorld (o : Outcome) (w0 : World) : World :=
  match o with
  | Normal w => w
  | Uncaught _ => w0
  end.

(** The split of two halves, the difference of their velocities, is
    perpendicular to the swipe direction [(dx, dy)]: the dot product of the
    two is zero. *)
Definition splitPerpendicular (l r : SlicedFruit) (dx dy : JS.number) : bool :=
  SFeqb ((sf_velocityX r - sf_velocityX l) * dx
         + (sf_velocityY r - sf_velocityY l) * dy)%js (JS.ofZ 0).

(** The speed at which an entity with vertical velocity [vy] moves up the
    screen ([y] grows downward). *)
Definition upwardSpeed (vy : JS.number) : JS.number := JS.neg vy.

(** The segment from [p1] to [p2] hits [fruit]: the test [checkCollisions]
    makes before it calls [sliceFruit]. *)
Definition hitBy (p1 p2 : BladePoint) (fruit : Fruit) : bool :=
  negb (fruit_sliced fruit)
  && hits p1 p2 (fruit_x fruit) (fruit_y fruit)
       (fruit_radius fruit * JS.dec 115 2)%js.

(** The two halves of a fruit, given the fruit and the identifiers of its
    left and right half. *)
Definition halvesOf (sliceAngle : JS.number) (now : Z)
  (h : Fruit * (string * string)) : list SlicedFruit :=
  [leftHalf (fst (snd h)) (fst h) sliceAngle now;
   rightHalf (snd (snd h)) (fst h) sliceAngle now].

(** ** The timers of an effect *)

(** The pending timers of [w] other than the one that ends the effect in
    progress, if there is one. *)
Definition pendingBesideEffect (w : World) : list Timer :=
  match effectTimeoutRef w with
  | Some old => filter (fun t => negb (Nat.eqb (timer_id t) old)) (timers w)
  | None => timers w
  end.

(** The timers an effect schedules when [first] is the next free
    identifier: a frenzy schedules sixteen spawns 80 ms apart and then its
    end after 4000 ms, a freeze its end after 3000 ms. *)
Definition effectTimers (type : SpecialFruitType) (captured : GameState)
  (first : nat) : list Timer :=
  match type with
  | frenzy =>
      map (fun i => {| timer_id := i + first; timer_delay := Z.of_nat i * 80;
                       timer_callback := CbFrenzySpawn captured |})
          (seq 0 16)
      ++ [{| timer_id := 16 + first; timer_delay := 4000;
             timer_callback := CbEndEffect |}]
  | freeze =>
      [{| timer_id := first; timer_delay := 3000;
          timer_callback := CbEndEffect |}]
  end.

(** ** Changes of the game state *)





(** ** Runs of slices *)

(** The storage accepts writes. *)
Definition canWrite (w : World) : Prop := writable (storage w) = true.

(** The score a slice of [fruit] at [now] takes [w] to. *)
Definition scoreAfter (fruit : Fruit) (now : Z) (w : World) : Z :=
  score (stats w)
  + FRUIT_POINTS (fruit_type fruit)
    * comboMultiplierOf (isPartOfComboAt now w) (stats w).

(** A slice of [fruit] at [now] raises the score above the high score, and
    the storage refuses the write of the new high score. *)
Definition refusesWrite (fruit : Fruit) (now : Z) (w : World) : bool :=
  (highScore (stats w) <? scoreAfter fruit now w)
  && negb (writable (storage w)).

(** One call of [sliceFruit]: the fruit, the slice angle, and the value of
    [Date.now()] in the call. *)
Record Slice := {
  slice_fruit : Fruit;
  slice_angle : JS.number;
  slice_now : Z
}.

Definition sliceAll {env : Env} (run : list Slice) (w : World) : Outcome :=
  forEach run
    (fun s => sliceFruit (slice_fruit s) (slice_angle s) (slice_now s)) w.

(** Every slice of [run] occurs strictly within the combo window of the
    slice before it, the first one of the slice at [prevTime]; the clock is
    positive. *)
Fixpoint withinWindow (prevTime : Z) (run : list Slice) : Prop :=
  match run with
  | [] => True
  | s :: rest =>
      0 < prevTime /\ slice_now s - prevTime < COMBO_WINDOW
      /\ withinWindow (slice_now s) rest
  end.

(** [run] starts a chain in [w]: its first slice has no slice before it
    since the game started, or one that is a full window old; the slices
    after the first are each strictly within the window of the previous. *)
Definition startsChain (w : World) (run : list Slice) : Prop :=
  match run with
  | [] => True
  | s :: rest =>
      (lastComboTimeRef w <= 0
       \/ COMBO_WINDOW <= slice_now s - lastComboTimeRef w)
      /\ withinWindow (slice_now s) rest
  end.

(** ** A sample host and sample entities

    The concrete scenarios run on an 800 x 600 canvas with a random source
    that always returns 0.5 (whose identifier is ["i"]).  All their swipes
    run horizontally from left to right, for which [Math.atan2(0, dx)] is 0:
    the sample [atan2] is that constant. *)

Definition sampleEnv : Env :=
  {| canvasWidth := JS.ofZ 800;
     canvasHeight := JS.ofZ 600;
     atan2 := fun _ _ => JS.ofZ 0;
     Math_random := fun _ => JS.dec 5 1;
     toString36 := fun _ => "i"%string |}.

Definition emptyStorage : Storage :=
  {| persisted := None; writable := true; writeLog := [] |}.

(** A game just started on an empty storage. *)
Definition freshGame : World :=
  @startGame (@initialWorld emptyStorage).

(** A fruit at rest at [(x, y)]. *)
Definition fruitAt (id : string) (type : FruitType) (x y radius : Z) : Fruit :=
  {| fruit_id := id; fruit_type := type;
     fruit_x := JS.ofZ x; fruit_y := JS.ofZ y;
     fruit_velocityX := JS.ofZ 0; fruit_velocityY := JS.ofZ 0;
     fruit_rotation := JS.ofZ 0; fruit_rotationSpeed := JS.ofZ 0;
     fruit_radius := JS.ofZ radius; fruit_sliced := false |}.

Definition bombAt (id : string) (x y : Z) : Bomb :=
  {| bomb_id := id; bomb_x := JS.ofZ x; bomb_y := JS.ofZ y;
     bomb_velocityX := JS.ofZ 0; bomb_velocityY := JS.ofZ 0;
     bomb_rotation := JS.ofZ 0; bomb_rotationSpeed := JS.ofZ 0;
     bomb_radius := JS.ofZ 40; bomb_sliced := false |}.

Definition pointAt (x y t : Z) : BladePoint :=
  {| bp_x := JS.ofZ x; bp_y := JS.ofZ y; bp_timestamp := t |}.

Definition sliceAt (now : Z) : Slice :=
  {| slice_fruit := fruitAt "a" apple 100 100 35;
     slice_angle := JS.ofZ 0; slice_now := now |}.

(** The sample host with a random source that always returns 0.15: no
    critical throw, one fruit and one bomb at every spawn, no special fruit. *)
Definition bombEnv : Env :=
  {| canvasWidth := JS.ofZ 800;
     canvasHeight := JS.ofZ 600;
     atan2 := fun _ _ => JS.ofZ 0;
     Math_random := fun _ => JS.dec 15 2;
     toString36 := fun _ => "5eeeeeeee"%string |}.

(** A fruit at [(x, 699)] falling at 20 per frame: one frame takes it
    below the lower bound 700 of the sample canvas. *)
Definition fallingFruit (id : string) (x : Z) : Fruit :=
  {| fruit_id := id; fruit_type := apple;
     fruit_x := JS.ofZ x; fruit_y := JS.ofZ 699;
     fruit_velocityX := JS.ofZ 0; fruit_velocityY := JS.ofZ 20;
     fruit_rotation := JS.ofZ 0; fruit_rotationSpeed := JS.ofZ 0;
     fruit_radius := JS.ofZ 35; fruit_sliced := false |}.

(** Three lives, four fruits about to fall off in the same frame. *)
Definition fourFalling : World :=
  set_fruits [fallingFruit "a" 100; fallingFruit "b" 300;
              fallingFruit "c" 500; fallingFruit "d" 700] freshGame.

(** Three lives, one fruit about to fall off. *)
Definition oneFalling : World :=
  set_fruits [fallingFruit "a" 100] freshGame.


(** A storage that holds the high score 10, and a game started on it, with
    three fruits about to fall off. *)
Definition storedTen : Storage :=
  {| persisted := Some 10; writable := true; writeLog := [] |}.

Definition defendingTen : World :=
  set_fruits [fallingFruit "a" 100; fallingFruit "b" 300;
              fallingFruit "c" 500] (@startGame (@initialWorld storedTen)).

(** A storage whose [setItem] raises, and a game started on it. *)
Definition brokenStorage : Storage :=
  {| persisted := None; writable := false; writeLog := [] |}.

Definition brokenGame : World :=
  set_fruits [fruitAt "a" apple 100 100 35]
    (@startGame (@initialWorld brokenStorage)).

(** A horizontal swipe through [(100, 100)], as one segment and as two. *)
Definition oneSegment : list BladePoint :=
  [pointAt 0 100 990; pointAt 200 100 1000].

Definition twoSegments : list BladePoint :=
  [pointAt 0 100 980; pointAt 100 100 990; pointAt 200 100 1000].

(** A fruit at [(100, 100)] rising at 10 per frame, in a fresh game. *)
Definition risingFruit : Fruit :=
  {| fruit_id := "a"; fruit_type := apple;
     fruit_x := JS.ofZ 100; fruit_y := JS.ofZ 100;
     fruit_velocityX := JS.ofZ 0; fruit_velocityY := JS.ofZ (-10);
     fruit_rotation := JS.ofZ 0; fruit_rotationSpeed := JS.ofZ 0;
     fruit_radius := JS.ofZ 35; fruit_sliced := false |}.

Definition oneRising : World := set_fruits [risingFruit] freshGame.

(** A game in which a fruit is spawned, rises for a frame and is then
    crossed by a swipe of two segments, the first entering its hit box and
    the second leaving it. *)
Definition doubleSliceTrace : list Event :=
  [StartGame;
   Frame [] false 2000;
   TimerFires 1;
   Frame [] false 2016;
   Frame [pointAt 350 600 2020; pointAt 400 600 2026; pointAt 450 600 2032]
     true 2032].


(** A game that a bomb ends in the very frame in which the spawner
    schedules the next fruit. *)
Definition bombThenSpawnTrace : list Event :=
  [StartGame;
   Frame [] false 2000;
   TimerFires 1;
   Frame [] false 2016;
   Frame [pointAt 100 600 3494; pointAt 200 600 3500] true 3500].

(** A storage that holds the high score 1000 and whose [setItem] raises,
    and a game started on it. *)
Definition lockedThousand : Storage :=
  {| persisted := Some 1000; writable := false; writeLog := [] |}.

Definition lockedGame : World := @startGame (@initialWorld lockedThousand).

(** A special fruit at rest at [(x, y)]. *)
Definition specialAt (id : string) (type : SpecialFruitType) (x y : Z)
  : SpecialFruit :=
  {| special_id := id; specialType := type;
     special_x := JS.ofZ x; special_y := JS.ofZ y;
     special_velocityX := JS.ofZ 0; special_velocityY := JS.ofZ 0;
     special_rotation := JS.ofZ 0; special_rotationSpeed := JS.ofZ 0;
     special_radius := JS.ofZ 45 |}.

(** A fresh game with a frenzy fruit and a freeze fruit in the air, and
    the same game after the frenzy fruit has been sliced: the frenzy is in
    progress, and timer 17 is the one that ends it. *)
Definition twoSpecials : World :=
  set_specialFruits [specialAt "f" frenzy 100 100;
                     specialAt "z" freeze 300 100] freshGame.

Definition inFrenzy : World :=
  sliceSpecialFruit playing (specialAt "f" frenzy 100 100) twoSpecials.

(** A fresh game with two fruits on the line [y = 100] and a third
    elsewhere, a special fruit and a bomb. *)
Definition crowded : World :=
  set_bombs [bombAt "b" 600 400]
    (set_specialFruits [specialAt "z" freeze 300 300]
       (set_fruits [risingFruit; fruitAt "c" banana 150 100 35;
                    fruitAt "d" orange 700 500 35] freshGame)).

(** ** The first implementation, [js/game.js]

    Of the class [Game], the part that persists the best score. *)

Module Legacy.

Record Game := {
  gameScore : Z;
  bestScore : Z;
  store : Storage
}.

Definition set_store (st : Storage) (g : Game) : Game :=
  {| gameScore := gameScore g; bestScore := bestScore g; store := st |}.

(** [saveBestScore()]: [try { localStorage.setItem(...) } catch (e) {
    console.warn(...) }]. *)
Definition saveBestScore (g : Game) : Game :=
  match storageSetItem (bestScore g) (store g) with
  | Some st => set_store st g
  | None => g
  end.

End Legacy.

(** * Properties *)

(** ** Arithmetic on zeros and NaN *)

Module JSFacts.

Import JS.

Lemma sub_diag_finite_or_NaN : forall x, zeroOrNaN (sub x x).
Proof.
  intros [s|s| |s m e];
    [destruct s; exact I | destruct s; exact I | exact I | ].
  unfold sub, SFsub.
  set (d := fst (shl_align m e (Z.min e e))).
  rewrite Z.sub_diag. exact I.
Qed.

Lemma sub_diag_finite : forall x, isFinite x -> sub x x = S754_zero false.
Proof.
  intros [s|s| |s m e] H;
    [destruct s; reflexivity | elim H | elim H | ].
  unfold sub, SFsub.
  set (d := fst (shl_align m e (Z.min e e))).
  rewrite Z.sub_diag. reflexivity.
Qed.

Lemma mul_zeroOrNaN_l : forall x y, zeroOrNaN x -> zeroOrNaN (mul x y).
Proof.
  intros [sx|sx| |sx mx ex] [sy|sy| |sy my ey] H; try elim H; exact I.
Qed.

Lemma mul_zeroOrNaN_r : forall x y, zeroOrNaN y -> zeroOrNaN (mul x y).
Proof.
  intros [sx|sx| |sx mx ex] [sy|sy| |sy my ey] H; try elim H; exact I.
Qed.

Lemma add_zeroOrNaN : forall x y,
  zeroOrNaN x -> zeroOrNaN y -> zeroOrNaN (add x y).
Proof.
  intros [sx|sx| |sx mx ex] [sy|sy| |sy my ey] Hx Hy;
    try elim Hx; try elim Hy; try exact I.
  destruct sx, sy; exact I.
Qed.

Lemma sub_zeroOrNaN : forall x y,
  zeroOrNaN x -> zeroOrNaN y -> zeroOrNaN (sub x y).
Proof.
  intros [sx|sx| |sx mx ex] [sy|sy| |sy my ey] Hx Hy;
    try elim Hx; try elim Hy; try exact I.
  destruct sx, sy; exact I.
Qed.

Lemma neg_zeroOrNaN : forall x, zeroOrNaN x -> zeroOrNaN (neg x).
Proof. intros [s|s| |s m e] H; try elim H; exact I. Qed.

Lemma sqrt_zeroOrNaN : forall x, zeroOrNaN x -> zeroOrNaN (sqrt x).
Proof. intros [s|s| |s m e] H; try elim H; exact I. Qed.

Lemma div_zeroOrNaN : forall x y,
  zeroOrNaN x -> zeroOrNaN y -> div x y = NaN.
Proof.
  intros [sx|sx| |sx mx ex] [sy|sy| |sy my ey] Hx Hy;
    try elim Hx; try elim Hy; reflexivity.
Qed.

Lemma lt_zeroOrNaN_zero : forall x, zeroOrNaN x -> lt x (ofZ 0) = false.
Proof. intros [s|s| |s m e] H; try elim H; reflexivity. Qed.

End JSFacts.

Section Degenerate.

Variables x y cx cy r : JS.number.

Let q := quadratic x y x y cx cy r.

Lemma degenerate_a : JS.zeroOrNaN (qa q).
Proof.
  unfold q, quadratic; cbn [qa]. apply JSFacts.add_zeroOrNaN;
    apply JSFacts.mul_zeroOrNaN_l, JSFacts.sub_diag_finite_or_NaN.
Qed.

Lemma degenerate_b : JS.zeroOrNaN (qb q).
Proof.
  unfold q, quadratic; cbn [qb].
  apply JSFacts.mul_zeroOrNaN_r, JSFacts.add_zeroOrNaN;
    apply JSFacts.mul_zeroOrNaN_r, JSFacts.sub_diag_finite_or_NaN.
Qed.

Lemma degenerate_disc : JS.zeroOrNaN (qdisc q).
Proof.
  change (qdisc q) with
    (qb q * qb q - JS.ofZ 4 * qa q * qc q)%js.
  apply JSFacts.sub_zeroOrNaN.
  - apply JSFacts.mul_zeroOrNaN_l, degenerate_b.
  - apply JSFacts.mul_zeroOrNaN_l, JSFacts.mul_zeroOrNaN_r, degenerate_a.
Qed.

Lemma degenerate_root1 : root1 q = JS.NaN.
Proof.
  unfold root1. apply JSFacts.div_zeroOrNaN.
  - apply JSFacts.sub_zeroOrNaN.
    + apply JSFacts.neg_zeroOrNaN, degenerate_b.
    + apply JSFacts.sqrt_zeroOrNaN, degenerate_disc.
  - apply JSFacts.mul_zeroOrNaN_r, degenerate_a.
Qed.

Lemma degenerate_root2 : root2 q = JS.NaN.
Proof.
  unfold root2. apply JSFacts.div_zeroOrNaN.
  - apply JSFacts.add_zeroOrNaN.
    + apply JSFacts.neg_zeroOrNaN, degenerate_b.
    + apply JSFacts.sqrt_zeroOrNaN, degenerate_disc.
  - apply JSFacts.mul_zeroOrNaN_r, degenerate_a.
Qed.

(** With finite endpoints the coefficient [a] is exactly [+0]. *)
Lemma degenerate_a_finite :
  JS.isFinite x -> JS.isFinite y -> qa q = S754_zero false.
Proof.
  intros Hx Hy. unfold q, quadratic; cbn [qa].
  rewrite (JSFacts.sub_diag_finite x Hx), (JSFacts.sub_diag_finite y Hy).
  reflexivity.
Qed.

End Degenerate.

(** C10.  A zero-length segment (both endpoints equal) hits no circle,
    whatever the circle: the coefficient [a] is a zero (or NaN when an
    endpoint is not finite), the discriminant is never negative, both roots
    are NaN, and NaN fails the range test.  The test is a total function:
    it returns a boolean on every input. *)
Theorem degenerate_segment_never_hits : forall x y cx cy r,
  lineCircleIntersection x y x y cx cy r = false
  /\ JS.zeroOrNaN (qa (quadratic x y x y cx cy r))
  /\ JS.lt (qdisc (quadratic x y x y cx cy r)) (JS.ofZ 0) = false
  /\ root1 (quadratic x y x y cx cy r) = JS.NaN
  /\ root2 (quadratic x y x y cx cy r) = JS.NaN.
Proof.
  intros x y cx cy r.
  pose proof (degenerate_disc x y cx cy r) as Hd.
  pose proof (degenerate_root1 x y cx cy r) as H1.
  pose proof (degenerate_root2 x y cx cy r) as H2.
  repeat split; auto using degenerate_a, JSFacts.lt_zeroOrNaN_zero.
  unfold lineCircleIntersection.
  rewrite (JSFacts.lt_zeroOrNaN_zero _ Hd), H1, H2. reflexivity.
Qed.

(** ** Handlers that complete *)

Section EffectFacts.

Lemma andThen_Normal : forall o k w',
  o >>= k = Normal w' -> exists w1, o = Normal w1 /\ k w1 = Normal w'.
Proof.
  intros [w1|e] k w' H; cbn [andThen] in H; [eauto | discriminate].
Qed.

Lemma forEach_preserves :
  forall (A : Type) (P : World -> Prop) (body : A -> World -> Outcome),
    (forall x w w', P w -> body x w = Normal w' -> P w') ->
    forall l w w', P w -> forEach l body w = Normal w' -> P w'.
Proof.
  intros A P body Hbody. induction l as [|x l IH]; intros w w' Hw Hrun.
  - cbn [forEach] in Hrun. injection Hrun as <-. exact Hw.
  - cbn [forEach] in Hrun.
    apply andThen_Normal in Hrun. destruct Hrun as (w1 & H1 & H2).
    eapply IH; [eapply Hbody; eassumption | exact H2].
Qed.

Lemma forEach_completes :
  forall (A : Type) (P : World -> Prop) (body : A -> World -> Outcome),
    (forall x w, P w -> exists w', body x w = Normal w' /\ P w') ->
    forall l w, P w -> exists w', forEach l body w = Normal w' /\ P w'.
Proof.
  intros A P body Hbody. induction l as [|x l IH]; intros w Hw.
  - exists w. split; [reflexivity | exact Hw].
  - destruct (Hbody x w Hw) as (w1 & H1 & Hw1).
    destruct (IH w1 Hw1) as (w' & Hrun & Hw').
    exists w'. split; [|exact Hw']. cbn [forEach]. rewrite H1. exact Hrun.
Qed.

End EffectFacts.

(** ** The slice handlers *)

Section SliceFacts.

Context {env : Env}.

Lemma setItem_canWrite : forall v w,
  canWrite w ->
  setItem v w =
  Normal (set_storage {| persisted := Some v; writable := true;
                         writeLog := v :: writeLog (storage w) |} w).
Proof.
  intros v w H. unfold setItem, storageSetItem.
  unfold canWrite in H. rewrite H. reflexivity.
Qed.

Lemma setItem_unwritable : forall v w,
  writable (storage w) = false -> setItem v w = Uncaught StorageError.
Proof.
  intros v w H. unfold setItem, storageSetItem. rewrite H. reflexivity.
Qed.

(** With a storage that accepts writes a fruit slice completes, and this
    is what it does to the counters and to the time of the last slice. *)
Lemma sliceFruit_completes : forall fruit sliceAngle now w,
  canWrite w ->
  exists w',
    sliceFruit fruit sliceAngle now w = Normal w'
    /\ combo (stats w') = newComboOf (isPartOfComboAt now w) (stats w)
    /\ score (stats w')
       = score (stats w)
         + FRUIT_POINTS (fruit_type fruit)
           * comboMultiplierOf (isPartOfComboAt now w) (stats w)
    /\ lives (stats w') = lives (stats w)
    /\ lastComboTimeRef w' = now
    /\ canWrite w'.
Proof.
  intros fruit sliceAngle now w H.
  unfold sliceFruit, fruitStatsUpdate.
  set (part := isPartOfComboAt now w).
  cbn [stats set_lastComboTimeRef].
  match goal with
  | |- context [if ?c then _ else _] => destruct c
  end.
  - rewrite setItem_canWrite by exact H.
    eexists; split; [reflexivity|]. repeat split.
  - eexists; split; [reflexivity|]. repeat split. exact H.
Qed.

Lemma isPartOfComboAt_true : forall now w,
  0 < lastComboTimeRef w ->
  now - lastComboTimeRef w < COMBO_WINDOW ->
  isPartOfComboAt now w = true.
Proof.
  intros now w H0 H1. unfold isPartOfComboAt.
  apply andb_true_iff; split; [apply Z.ltb_lt | apply Z.gtb_lt]; lia.
Qed.

Lemma isPartOfComboAt_false : forall now w,
  lastComboTimeRef w <= 0 \/ COMBO_WINDOW <= now - lastComboTimeRef w ->
  isPartOfComboAt now w = false.
Proof.
  intros now w H. unfold isPartOfComboAt.
  apply andb_false_iff. destruct H as [H|H].
  - right. rewrite Z.gtb_ltb. apply Z.ltb_ge. exact H.
  - left. apply Z.ltb_ge. exact H.
Qed.

(** What a fruit slice does, whatever the storage: it lets the failure of
    the high-score write escape when that write is due and refused, and
    otherwise completes with these counters and two more halves. *)
Lemma sliceFruit_outcome : forall fruit sliceAngle now w,
  if refusesWrite fruit now w
  then sliceFruit fruit sliceAngle now w = Uncaught StorageError
  else exists w' idL idR,
         sliceFruit fruit sliceAngle now w = Normal w'
         /\ combo (stats w') = newComboOf (isPartOfComboAt now w) (stats w)
         /\ score (stats w') = scoreAfter fruit now w
         /\ lastComboTimeRef w' = now
         /\ writable (storage w') = writable (storage w)
         /\ slicedFruits w'
            = slicedFruits w ++ [leftHalf idL fruit sliceAngle now;
                                 rightHalf idR fruit sliceAngle now].
Proof.
  intros fruit sliceAngle now w.
  unfold refusesWrite, scoreAfter, sliceFruit, fruitStatsUpdate.
  set (part := isPartOfComboAt now w).
  cbn [stats set_lastComboTimeRef].
  set (newScore := score (stats w) + _).
  destruct (Z.ltb_spec (highScore (stats w)) newScore) as [Hlt|Hge].
  - replace (Z.max newScore (highScore (stats w)) >? highScore (stats w))
      with true by (symmetry; apply Z.gtb_lt; lia).
    unfold setItem, storageSetItem. cbn [storage set_lastComboTimeRef].
    destruct (writable (storage w)) eqn:Hw; cbn [andb negb andThen].
    + eexists. eexists. eexists. split; [reflexivity|]. repeat split.
    + reflexivity.
  - replace (Z.max newScore (highScore (stats w)) >? highScore (stats w))
      with false by (symmetry; rewrite Z.gtb_ltb; apply Z.ltb_ge; lia).
    cbn [andb andThen].
    eexists. eexists. eexists. split; [reflexivity|]. repeat split.
Qed.

(** What a fruit slice that completes has done. *)
Lemma sliceFruit_done : forall fruit sliceAngle now w w',
  sliceFruit fruit sliceAngle now w = Normal w' ->
  refusesWrite fruit now w = false
  /\ combo (stats w') = newComboOf (isPartOfComboAt now w) (stats w)
  /\ score (stats w') = scoreAfter fruit now w
  /\ lastComboTimeRef w' = now
  /\ writable (storage w') = writable (storage w)
  /\ exists idL idR,
       slicedFruits w'
       = slicedFruits w ++ [leftHalf idL fruit sliceAngle now;
                            rightHalf idR fruit sliceAngle now].
Proof.
  intros fruit sliceAngle now w w' H.
  pose proof (sliceFruit_outcome fruit sliceAngle now w) as Ho.
  destruct (refusesWrite fruit now w).
  - rewrite Ho in H. discriminate.
  - destruct Ho as (w1 & idL & idR & Hrun & Hc & Hs & Ht & Hw & Hh).
    rewrite Hrun in H. injection H as <-.
    repeat split; auto. exists idL, idR. exact Hh.
Qed.

(** Inside a chain: after the slices of [pre] have completed, the next
    slice continues the chain, and the counter stands at the one [w] had
    plus the length of [pre]. *)
Lemma chain_prefix : forall pre s post w wb,
  withinWindow (lastComboTimeRef w) (pre ++ s :: post) ->
  sliceAll pre w = Normal wb ->
  isPartOfComboAt (slice_now s) wb = true
  /\ combo (stats wb) = combo (stats w) + Z.of_nat (List.length pre).
Proof.
  induction pre as [|p pre IH]; intros s post w wb Hrun Hpre.
  - cbn in Hpre. injection Hpre as <-.
    cbn [app withinWindow] in Hrun. destruct Hrun as (Hpos & Hgap & _).
    split; [apply isPartOfComboAt_true; assumption | cbn; lia].
  - cbn [app withinWindow] in Hrun. destruct Hrun as (Hpos & Hgap & Hrest).
    unfold sliceAll in Hpre. cbn [forEach] in Hpre.
    apply andThen_Normal in Hpre. destruct Hpre as (w1 & H1 & Hpre).
    apply sliceFruit_done in H1.
    destruct H1 as (_ & Hc1 & _ & Ht1 & _).
    rewrite (isPartOfComboAt_true _ _ Hpos Hgap) in Hc1.
    cbn [newComboOf] in Hc1. rewrite <- Ht1 in Hrest.
    destruct (IH s post w1 wb Hrest Hpre) as (Hp & Hcb).
    split; [exact Hp|]. rewrite Hcb, Hc1. cbn [List.length]. lia.
Qed.

(** The counter the [k]-th slice of a chain finds, [k] being one more than
    the length of [pre]. *)
Lemma chain_position : forall w run pre post s wb,
  startsChain w run ->
  run = pre ++ s :: post ->
  sliceAll pre w = Normal wb ->
  newComboOf (isPartOfComboAt (slice_now s) wb) (stats wb)
  = Z.of_nat (List.length pre) + 1.
Proof.
  intros w run pre post s wb Hstart -> Hpre.
  destruct pre as [|p pre].
  - cbn in Hpre. injection Hpre as <-.
    cbn [app startsChain] in Hstart. destruct Hstart as (Hfirst & _).
    rewrite (isPartOfComboAt_false _ _ Hfirst). reflexivity.
  - cbn [app startsChain] in Hstart. destruct Hstart as (Hfirst & Hrest).
    unfold sliceAll in Hpre. cbn [forEach] in Hpre.
    apply andThen_Normal in Hpre. destruct Hpre as (w1 & H1 & Hpre).
    apply sliceFruit_done in H1.
    destruct H1 as (_ & Hc1 & _ & Ht1 & _).
    rewrite (isPartOfComboAt_false _ _ Hfirst) in Hc1.
    cbn [newComboOf] in Hc1. rewrite <- Ht1 in Hrest.
    destruct (chain_prefix pre s post w1 wb Hrest Hpre) as (Hp & Hcb).
    rewrite Hp. cbn [newComboOf]. rewrite Hcb, Hc1.
    cbn [List.length]. lia.
Qed.

(** On a storage that accepts writes every run of slices completes. *)
Lemma sliceAll_completes : forall run w,
  canWrite w -> exists w', sliceAll run w = Normal w' /\ canWrite w'.
Proof.
  induction run as [|s run IH]; intros w Hw.
  - exists w. split; [reflexivity | exact Hw].
  - destruct (sliceFruit_completes (slice_fruit s) (slice_angle s)
                (slice_now s) w Hw) as (w1 & H1 & _ & _ & _ & _ & Hw1).
    destruct (IH w1 Hw1) as (w' & Hrun & Hw').
    exists w'. split; [|exact Hw'].
    unfold sliceAll in *. cbn [forEach]. rewrite H1. exact Hrun.
Qed.

(** A run of slices completes, or it stops at its first slice whose
    high-score write is due and refused. *)
Lemma sliceAll_total : forall run w,
  (exists w', sliceAll run w = Normal w')
  \/ (exists pre s post wb,
        run = pre ++ s :: post
        /\ sliceAll pre w = Normal wb
        /\ refusesWrite (slice_fruit s) (slice_now s) wb = true
        /\ sliceAll run w = Uncaught StorageError).
Proof.
  induction run as [|s run IH]; intro w.
  - left. exists w. reflexivity.
  - pose proof (sliceFruit_outcome (slice_fruit s) (slice_angle s)
                  (slice_now s) w) as Ho.
    destruct (refusesWrite (slice_fruit s) (slice_now s) w) eqn:Hr.
    + right. exists [], s, run, w.
      repeat split; [exact Hr|].
      unfold sliceAll. cbn [forEach]. rewrite Ho. reflexivity.
    + destruct Ho as (w1 & _ & _ & H1 & _).
      destruct (IH w1) as [(w' & Hrun)|(pre & s' & post & wb & -> & Hpre
                                         & Hr' & Hrun)].
      * left. exists w'. unfold sliceAll in *. cbn [forEach].
        rewrite H1. exact Hrun.
      * right. exists (s :: pre), s', post, wb.
        unfold sliceAll in *. cbn [forEach app]. rewrite H1.
        repeat split; assumption.
Qed.

End SliceFacts.

(** C1.  In a run of consecutive fruit slices that starts a chain and in
    which every later slice occurs strictly within [COMBO_WINDOW] (800 ms)
    of the slice before it, the [k]-th slice applies the multiplier
    [min k 8] to the base points of its fruit and, unless it raises the
    score above the high score on a storage that refuses the write, sets
    the combo counter to [k] and raises the score by base points times
    [min k 8]; a slice at a gap greater than the window applies the
    multiplier 1 and, under the same condition, sets the combo counter
    to 1.  In the remaining case, a high-score write that is due and
    refused, the failure escapes the slice: no counter and no score
    changes.  On a storage that accepts writes every run completes; on any
    storage a run completes or stops at its first slice whose high-score
    write is due and refused. *)
Theorem combo_chain_multiplier : forall (env : Env),
  (forall (w : World) (run pre post : list Slice) (s : Slice) (wb : World),
      startsChain w run ->
      run = pre ++ s :: post ->
      sliceAll pre w = Normal wb ->
      comboMultiplierOf (isPartOfComboAt (slice_now s) wb) (stats wb)
      = Z.min (Z.of_nat (List.length pre) + 1) 8
      /\ (if refusesWrite (slice_fruit s) (slice_now s) wb
          then sliceFruit (slice_fruit s) (slice_angle s) (slice_now s) wb
               = Uncaught StorageError
          else exists wa,
                 sliceFruit (slice_fruit s) (slice_angle s) (slice_now s) wb
                 = Normal wa
                 /\ combo (stats wa) = Z.of_nat (List.length pre) + 1
                 /\ score (stats wa)
                    = score (stats wb)
                      + FRUIT_POINTS (fruit_type (slice_fruit s))
                        * Z.min (Z.of_nat (List.length pre) + 1) 8))
  /\
  (forall (w : World) (fruit : Fruit) (sliceAngle : JS.number) (now : Z),
      now - lastComboTimeRef w > COMBO_WINDOW ->
      comboMultiplierOf (isPartOfComboAt now w) (stats w) = 1
      /\ (if refusesWrite fruit now w
          then sliceFruit fruit sliceAngle now w = Uncaught StorageError
          else exists wa,
                 sliceFruit fruit sliceAngle now w = Normal wa
                 /\ combo (stats wa) = 1
                 /\ score (stats wa)
                    = score (stats w) + FRUIT_POINTS (fruit_type fruit) * 1))
  /\
  (forall (w : World) (fruit : Fruit) (now : Z),
      refusesWrite fruit now w = true
      <-> writable (storage w) = false
          /\ highScore (stats w)
             < score (stats w)
               + FRUIT_POINTS (fruit_type fruit)
                 * comboMultiplierOf (isPartOfComboAt now w) (stats w))
  /\
  (forall (w : World) (run : list Slice),
      canWrite w -> exists w', sliceAll run w = Normal w' /\ canWrite w')
  /\
  (forall (w : World) (run : list Slice),
      (exists w', sliceAll run w = Normal w')
      \/ (exists pre s post wb,
            run = pre ++ s :: post
            /\ sliceAll pre w = Normal wb
            /\ refusesWrite (slice_fruit s) (slice_now s) wb = true
            /\ sliceAll run w = Uncaught StorageError)).
Proof.
  intro env. split; [|split; [|split; [|split]]].
  - intros w run pre post s wb Hstart Hrun Hpre.
    pose proof (chain_position w run pre post s wb Hstart Hrun Hpre) as Hk.
    pose proof (sliceFruit_outcome (slice_fruit s) (slice_angle s)
                  (slice_now s) wb) as Ho.
    split; [unfold comboMultiplierOf; rewrite Hk; reflexivity|].
    destruct (refusesWrite (slice_fruit s) (slice_now s) wb); [exact Ho|].
    destruct Ho as (wa & _ & _ & Hsl & Hc & Hs & _).
    exists wa. split; [exact Hsl|]. split; [rewrite Hc; exact Hk|].
    rewrite Hs. unfold scoreAfter, comboMultiplierOf. rewrite Hk.
    reflexivity.
  - intros w fruit sliceAngle now Hgap.
    assert (Hpart : isPartOfComboAt now w = false)
      by (apply isPartOfComboAt_false; right; lia).
    pose proof (sliceFruit_outcome fruit sliceAngle now w) as Ho.
    split; [rewrite Hpart; reflexivity|].
    destruct (refusesWrite fruit now w); [exact Ho|].
    destruct Ho as (wa & _ & _ & Hsl & Hc & Hs & _).
    exists wa. split; [exact Hsl|]. rewrite Hc, Hs.
    unfold scoreAfter. rewrite Hpart. split; reflexivity.
  - intros w fruit now. unfold refusesWrite, scoreAfter.
    rewrite andb_true_iff, negb_true_iff, Z.ltb_lt. tauto.
  - intros w run. apply sliceAll_completes.
  - intros w run. apply sliceAll_total.
Qed.

(** On a storage that refuses writes the first slice of a game lets the
    failure escape.  On a storage that refuses writes and holds the high
    score 1000, three apples sliced 200 ms apart complete, the third with
    combo 3 and three points.  In a fresh game a slice 2000 ms after the
    start has combo 1, and a run of three slices completes. *)
Lemma combo_chain_multiplier_witness :
  (startsChain brokenGame [sliceAt 1000]
   /\ @sliceAll sampleEnv [] brokenGame = Normal brokenGame
   /\ @sliceFruit sampleEnv (fruitAt "a" apple 100 100 35) (JS.ofZ 0) 1000
        brokenGame = Uncaught StorageError)
  /\ (startsChain lockedGame [sliceAt 1000; sliceAt 1200; sliceAt 1400]
      /\ exists wb wa,
           @sliceAll sampleEnv [sliceAt 1000; sliceAt 1200] lockedGame
           = Normal wb
           /\ @sliceFruit sampleEnv (fruitAt "a" apple 100 100 35) (JS.ofZ 0)
                1400 wb = Normal wa
           /\ combo (stats wa) = 3
           /\ score (stats wa) = score (stats wb) + 1 * 3)
  /\ (2000 - lastComboTimeRef freshGame > COMBO_WINDOW
      /\ exists wa,
           @sliceFruit sampleEnv (fruitAt "a" apple 100 100 35) (JS.ofZ 0)
             2000 freshGame = Normal wa
           /\ combo (stats wa) = 1)
  /\ (canWrite freshGame
      /\ exists w',
           @sliceAll sampleEnv [sliceAt 1000; sliceAt 1200; sliceAt 1400]
             freshGame = Normal w').
Proof.
  assert (Hb : startsChain brokenGame [sliceAt 1000])
    by (cbn; unfold COMBO_WINDOW; lia).
  assert (Hb0 : @sliceAll sampleEnv [] brokenGame = Normal brokenGame)
    by reflexivity.
  assert (Hl : startsChain lockedGame
                 [sliceAt 1000; sliceAt 1200; sliceAt 1400])
    by (cbn; unfold COMBO_WINDOW; lia).
  assert (Hl2 : @sliceAll sampleEnv [sliceAt 1000; sliceAt 1200] lockedGame
                = Normal (finalWorld
                            (@sliceAll sampleEnv [sliceAt 1000; sliceAt 1200]
                               lockedGame) lockedGame))
    by (vm_compute; reflexivity).
  assert (Hg : 2000 - lastComboTimeRef freshGame > COMBO_WINDOW)
    by (cbn; unfold COMBO_WINDOW; lia).
  assert (Hw : canWrite freshGame) by reflexivity.
  destruct (combo_chain_multiplier sampleEnv) as (H1 & H2 & _ & H4 & _).
  split; [|split; [|split]].
  - split; [exact Hb|]. split; [exact Hb0|].
    destruct (H1 brokenGame [sliceAt 1000] [] [] (sliceAt 1000) brokenGame
                Hb eq_refl Hb0) as (_ & Hif).
    exact Hif.
  - split; [exact Hl|].
    destruct (H1 lockedGame [sliceAt 1000; sliceAt 1200; sliceAt 1400]
                [sliceAt 1000; sliceAt 1200] [] (sliceAt 1400) _
                Hl eq_refl Hl2) as (_ & wa & Hsl & Hc & Hs).
    eexists. exists wa. split; [exact Hl2|]. split; [exact Hsl|].
    split; [exact Hc | exact Hs].
  - split; [exact Hg|].
    destruct (H2 freshGame (fruitAt "a" apple 100 100 35) (JS.ofZ 0) 2000 Hg)
      as (_ & wa & Hsl & Hc & _).
    exists wa. split; [exact Hsl | exact Hc].
  - split; [exact Hw|].
    destruct (H4 freshGame [sliceAt 1000; sliceAt 1200; sliceAt 1400] Hw)
      as (w' & Hrun & _).
    exists w'. exact Hrun.
Defined.

(** ** Special fruits *)

Section SpecialFacts.

Context {env : Env}.

Lemma filterOutId_absent : forall (A : Type) (idOf : A -> string) id l,
  existsb (fun x => String.eqb (idOf x) id) (filterOutId idOf id l) = false.
Proof.
  intros A idOf id. induction l as [|x l IH]; [reflexivity|].
  unfold filterOutId in *. cbn [filter].
  destruct (String.eqb (idOf x) id) eqn:E; cbn [negb].
  - exact IH.
  - cbn [existsb]. rewrite E. exact IH.
Qed.

Lemma activateFreeze_effect : forall w,
  activeEffect (activateFreeze w) = Some freeze
  /\ timeScale (activateFreeze w) = JS.dec 2 1
  /\ exists id,
       effectTimeoutRef (activateFreeze w) = Some id
       /\ In {| timer_id := id; timer_delay := 3000;
                timer_callback := CbEndEffect |}
             (timers (activateFreeze w)).
Proof.
  intro w. unfold activateFreeze. cbn.
  repeat split. eexists. split; [reflexivity|].
  apply in_or_app. right. left. reflexivity.
Qed.

Lemma activateFrenzy_effect : forall captured w,
  activeEffect (activateFrenzy captured w) = Some frenzy
  /\ timeScale (activateFrenzy captured w) = JS.dec 3 1
  /\ exists id,
       effectTimeoutRef (activateFrenzy captured w) = Some id
       /\ In {| timer_id := id; timer_delay := 4000;
                timer_callback := CbEndEffect |}
             (timers (activateFrenzy captured w)).
Proof.
  intros captured w. unfold activateFrenzy. cbn.
  repeat split. eexists. split; [reflexivity|].
  apply in_or_app. right. left. reflexivity.
Qed.

(** Activating an effect touches neither the counters, nor the special
    fruits, nor the time of the last slice. *)
Lemma activateFreeze_frame : forall w,
  stats (activateFreeze w) = stats w
  /\ specialFruits (activateFreeze w) = specialFruits w
  /\ lastComboTimeRef (activateFreeze w) = lastComboTimeRef w.
Proof.
  intro w. unfold activateFreeze, clearEffectTimeout.
  destruct (effectTimeoutRef w); repeat split.
Qed.

Lemma activateFrenzy_frame : forall captured w,
  stats (activateFrenzy captured w) = stats w
  /\ specialFruits (activateFrenzy captured w) = specialFruits w
  /\ lastComboTimeRef (activateFrenzy captured w) = lastComboTimeRef w.
Proof.
  intros captured w. unfold activateFrenzy, clearEffectTimeout.
  destruct (effectTimeoutRef w); repeat split.
Qed.

(** What activating an effect does to the timers: the timer that ends the
    effect in progress is cancelled, the other pending timers stay, and the
    timers of the new effect are scheduled after them. *)
Lemma activateFreeze_timers : forall w,
  timers (activateFreeze w)
  = pendingBesideEffect w ++ effectTimers freeze menu (nextTimerId w)
  /\ effectTimeoutRef (activateFreeze w) = Some (nextTimerId w).
Proof.
  intro w. unfold activateFreeze, clearEffectTimeout, pendingBesideEffect.
  destruct (effectTimeoutRef w); split; reflexivity.
Qed.

Lemma activateFrenzy_timers : forall captured w,
  timers (activateFrenzy captured w)
  = pendingBesideEffect w ++ effectTimers frenzy captured (nextTimerId w)
  /\ effectTimeoutRef (activateFrenzy captured w)
     = Some (16 + nextTimerId w)%nat.
Proof.
  intros captured w.
  unfold activateFrenzy, clearEffectTimeout, pendingBesideEffect.
  destruct (effectTimeoutRef w); split; try reflexivity.
  - cbn. repeat rewrite <- app_assoc. reflexivity.
  - cbn. repeat rewrite <- app_assoc. reflexivity.
Qed.

(** The special fruits with another identifier. *)
Lemma filter_In_other : forall (special : SpecialFruit) l s,
  In s (filter (fun x => negb (String.eqb (special_id x)
                                 (special_id special))) l)
  <-> In s l /\ special_id s <> special_id special.
Proof.
  intros special l s. rewrite filter_In, negb_true_iff, String.eqb_neq.
  reflexivity.
Qed.

Lemma effectTimers_fresh : forall type captured first t,
  In t (effectTimers type captured first) -> (first <= timer_id t)%nat.
Proof.
  intros type captured first t H. destruct type; cbn [effectTimers] in H.
  - apply in_app_or in H. destruct H as [H|[<-|[]]].
    + apply in_map_iff in H. destruct H as (i & <- & _). cbn. lia.
    + cbn. lia.
  - destruct H as [<-|[]]. cbn. lia.
Qed.

Lemma pendingBesideEffect_spec : forall w t,
  In t (pendingBesideEffect w)
  <-> In t (timers w) /\ Some (timer_id t) <> effectTimeoutRef w.
Proof.
  intros w t. unfold pendingBesideEffect.
  destruct (effectTimeoutRef w) as [old|].
  - rewrite filter_In, negb_true_iff, Nat.eqb_neq.
    split; intros (H1 & H2); (split; [exact H1|]); congruence.
  - split; [intro H; split; [exact H | discriminate] | tauto].
Qed.

Lemma sliceSpecialFruit_timers : forall captured special w,
  timers (sliceSpecialFruit captured special w)
  = pendingBesideEffect w
    ++ effectTimers (specialType special) captured (nextTimerId w)
  /\ effectTimeoutRef (sliceSpecialFruit captured special w)
     = Some (match specialType special with
             | frenzy => 16 + nextTimerId w
             | freeze => nextTimerId w
             end)%nat.
Proof.
  intros captured special w. unfold sliceSpecialFruit.
  set (w1 := set_specialFruits _ _).
  change (pendingBesideEffect w) with (pendingBesideEffect w1).
  change (nextTimerId w) with (nextTimerId w1).
  destruct (specialType special).
  - apply activateFrenzy_timers.
  - apply activateFreeze_timers.
Qed.

End SpecialFacts.

(** C9.  Slicing a special fruit adds exactly 50 to the score, removes the
    special fruit from [specialFruits] and leaves every other special fruit
    in it, in order, and activates its effect: the effect becomes active,
    the time scale drops, the timer that ends an effect in progress is
    cancelled while the other pending timers stay, and the timers of the
    new effect are pending, the last of them the one that ends it.
    [lives], [combo], [maxCombo], [fruitsSliced] and the time of the last
    fruit slice stay as they were: whether a later fruit slice continues a
    combo chain is decided exactly as before. *)
Theorem sliceSpecialFruit_effect :
  forall (env : Env) (captured : GameState) (special : SpecialFruit)
         (w : World),
    score (stats (sliceSpecialFruit captured special w))
    = score (stats w) + 50
    /\ specialFruits (sliceSpecialFruit captured special w)
       = filter (fun s => negb (String.eqb (special_id s)
                                  (special_id special)))
           (specialFruits w)
    /\ (forall s,
          In s (specialFruits (sliceSpecialFruit captured special w))
          <-> In s (specialFruits w)
              /\ special_id s <> special_id special)
    /\ existsb (fun s => String.eqb (special_id s) (special_id special))
         (specialFruits (sliceSpecialFruit captured special w)) = false
    /\ activeEffect (sliceSpecialFruit captured special w)
       = Some (specialType special)
    /\ timeScale (sliceSpecialFruit captured special w)
       = match specialType special with
         | frenzy => JS.dec 3 1
         | freeze => JS.dec 2 1
         end
    /\ (exists id,
          effectTimeoutRef (sliceSpecialFruit captured special w) = Some id
          /\ In {| timer_id := id;
                   timer_delay := match specialType special with
                                  | frenzy => 4000
                                  | freeze => 3000
                                  end;
                   timer_callback := CbEndEffect |}
                (timers (sliceSpecialFruit captured special w)))
    /\ timers (sliceSpecialFruit captured special w)
       = pendingBesideEffect w
         ++ effectTimers (specialType special) captured (nextTimerId w)
    /\ effectTimeoutRef (sliceSpecialFruit captured special w)
       = Some (match specialType special with
               | frenzy => 16 + nextTimerId w
               | freeze => nextTimerId w
               end)%nat
    /\ (forall t,
          In t (timers w) ->
          Some (timer_id t) <> effectTimeoutRef w ->
          In t (timers (sliceSpecialFruit captured special w)))
    /\ (forall old t,
          effectTimeoutRef w = Some old ->
          (old < nextTimerId w)%nat ->
          In t (timers (sliceSpecialFruit captured special w)) ->
          timer_id t <> old)
    /\ lives (stats (sliceSpecialFruit captured special w)) = lives (stats w)
    /\ combo (stats (sliceSpecialFruit captured special w)) = combo (stats w)
    /\ maxCombo (stats (sliceSpecialFruit captured special w))
       = maxCombo (stats w)
    /\ fruitsSliced (stats (sliceSpecialFruit captured special w))
       = fruitsSliced (stats w)
    /\ lastComboTimeRef (sliceSpecialFruit captured special w)
       = lastComboTimeRef w
    /\ (forall now fruitStats,
          newComboOf
            (isPartOfComboAt now (sliceSpecialFruit captured special w))
            fruitStats
          = newComboOf (isPartOfComboAt now w) fruitStats).
Proof.
  intros env captured special w.
  destruct (sliceSpecialFruit_timers captured special w) as (Htm & Href).
  assert (Hkeep : forall t,
            In t (timers w) ->
            Some (timer_id t) <> effectTimeoutRef w ->
            In t (timers (sliceSpecialFruit captured special w))).
  { intros t Hin Hne. rewrite Htm. apply in_or_app. left.
    apply pendingBesideEffect_spec. split; assumption. }
  assert (Hgone : forall old t,
            effectTimeoutRef w = Some old ->
            (old < nextTimerId w)%nat ->
            In t (timers (sliceSpecialFruit captured special w)) ->
            timer_id t <> old).
  { intros old t Hold Hlt Hin. rewrite Htm in Hin.
    apply in_app_or in Hin. destruct Hin as [Hin|Hin].
    - apply pendingBesideEffect_spec in Hin. destruct Hin as (_ & Hne).
      rewrite Hold in Hne. congruence.
    - apply effectTimers_fresh in Hin. lia. }
  revert Htm Href Hkeep Hgone.
  unfold sliceSpecialFruit.
  set (w1 := set_specialFruits _ _).
  assert (Hs : stats w1 = {| score := score (stats w) + 50;
                             lives := lives (stats w);
                             combo := combo (stats w);
                             maxCombo := maxCombo (stats w);
                             fruitsSliced := fruitsSliced (stats w);
                             highScore := highScore (stats w) |})
    by reflexivity.
  assert (Hf : specialFruits w1
               = filter (fun s => negb (String.eqb (special_id s)
                                          (special_id special)))
                   (specialFruits w))
    by reflexivity.
  assert (Ht : lastComboTimeRef w1 = lastComboTimeRef w) by reflexivity.
  pose proof (filterOutId_absent SpecialFruit special_id (special_id special)
                (specialFruits w)) as Habs.
  unfold filterOutId in Habs.
  destruct (specialType special); intros Htm Href Hkeep Hgone.
  - destruct (activateFrenzy_effect captured w1) as (Ha & Hts & Htimer).
    destruct (activateFrenzy_frame captured w1) as (Hst & Hsp & Hl).
    rewrite Hst, Hs, Hsp, Hf, Hl, Ht.
    cbn [score lives combo maxCombo fruitsSliced].
    repeat match goal with |- _ /\ _ => split end; auto.
    + intro s. apply filter_In_other.
    + intros now fs. unfold isPartOfComboAt. rewrite Hl, Ht. reflexivity.
  - destruct (activateFreeze_effect w1) as (Ha & Hts & Htimer).
    destruct (activateFreeze_frame w1) as (Hst & Hsp & Hl).
    rewrite Hst, Hs, Hsp, Hf, Hl, Ht.
    cbn [score lives combo maxCombo fruitsSliced].
    repeat match goal with |- _ /\ _ => split end; auto.
    + intro s. apply filter_In_other.
    + intros now fs. unfold isPartOfComboAt. rewrite Hl, Ht. reflexivity.
Qed.

(** Slicing the frenzy fruit of two special fruits leaves the freeze fruit
    in the air; slicing the freeze fruit during the frenzy cancels timer 17,
    the one that would have ended the frenzy. *)
Lemma sliceSpecialFruit_effect_witness :
  effectTimeoutRef inFrenzy = Some 17%nat
  /\ (17 < nextTimerId inFrenzy)%nat
  /\ (forall t,
        In t (timers (sliceSpecialFruit playing (specialAt "z" freeze 300 100)
                        inFrenzy)) ->
        timer_id t <> 17%nat)
  /\ (In (specialAt "z" freeze 300 100) (specialFruits twoSpecials)
      /\ special_id (specialAt "z" freeze 300 100)
         <> special_id (specialAt "f" frenzy 100 100))
  /\ In (specialAt "z" freeze 300 100) (specialFruits inFrenzy).
Proof.
  assert (Href : effectTimeoutRef inFrenzy = Some 17%nat) by reflexivity.
  assert (Hlt : (17 < nextTimerId inFrenzy)%nat) by (cbn; lia).
  assert (Hin : In (specialAt "z" freeze 300 100) (specialFruits twoSpecials)
                /\ special_id (specialAt "z" freeze 300 100)
                   <> special_id (specialAt "f" frenzy 100 100))
    by (split; [right; left; reflexivity | discriminate]).
  split; [exact Href|]. split; [exact Hlt|]. split; [|split; [exact Hin|]].
  - intros t Ht.
    destruct (sliceSpecialFruit_effect sampleEnv playing
                (specialAt "z" freeze 300 100) inFrenzy)
      as (_ & _ & _ & _ & _ & _ & _ & _ & _ & _ & Hgone & _).
    exact (Hgone 17%nat t Href Hlt Ht).
  - destruct (sliceSpecialFruit_effect sampleEnv playing
                (specialAt "f" frenzy 100 100) twoSpecials)
      as (_ & _ & Hstay & _).
    exact (proj2 (Hstay (specialAt "z" freeze 300 100)) Hin).
Defined.

(** ** The physics update *)

Section PhysicsFacts.

Context {env : Env}.

Lemma stagger_core : forall cb gap count i w,
  core (stagger cb gap count i w) = core w.
Proof.
  intros cb gap. induction count as [|c IH]; intros i w; [reflexivity|].
  cbn [stagger]. rewrite IH. reflexivity.
Qed.

Lemma criticalThrow_core : forall w, core (criticalThrow w) = core w.
Proof.
  intro w. unfold criticalThrow, random.
  cbn [snd setTimeout]. unfold core at 1.
  cbn [stats gameState stateLog storage lastComboTimeRef
       set_nextTimerId set_timers set_criticalFlash].
  fold (core (stagger CbSpawnFruit 60
                (iterations 4
                   (JS.floor (Math_random (randomCalls w) * JS.ofZ 2)%js))
                0
                (set_randomCalls (S (randomCalls (set_randomCalls
                   (S (randomCalls w)) w)))
                   (set_randomCalls (S (randomCalls w)) w)))).
  rewrite stagger_core. reflexivity.
Qed.

Lemma spawnBomb_core : forall w, core (spawnBomb w) = core w.
Proof. reflexivity. Qed.

Lemma spawnFruit_core : forall w, core (spawnFruit w) = core w.
Proof. reflexivity. Qed.

Lemma spawnSpecialFruit_core : forall type w,
  core (spawnSpecialFruit type w) = core w.
Proof. reflexivity. Qed.

Lemma regularSpawn_core : forall w, core (regularSpawn w) = core w.
Proof.
  intro w. unfold regularSpawn, random.
  match goal with
  | |- context [if ?c then _ else _] => destruct c
  end; [rewrite spawnBomb_core|]; unfold core at 1;
    cbn [stats gameState stateLog storage lastComboTimeRef set_randomCalls];
    match goal with
    | |- context [stagger ?cb ?gap ?n ?i ?w0] =>
        change (core (stagger cb gap n i w0) = core w);
        rewrite stagger_core
    end; reflexivity.
Qed.

Lemma maybeSpawnSpecial_core : forall w,
  core (maybeSpawnSpecial w) = core w.
Proof.
  intro w. unfold maybeSpawnSpecial, random.
  destruct (waveRef w >=? SPECIAL_FRUIT_MIN_WAVE);
    match goal with
    | |- context [if ?c then _ else _] => destruct c
    end; reflexivity.
Qed.

Lemma advanceWave_core : forall snap w, core (advanceWave snap w) = core w.
Proof.
  intros snap w. unfold advanceWave.
  match goal with
  | |- context [if ?c then _ else _] => destruct c
  end; reflexivity.
Qed.

Lemma spawner_core : forall snap now w, core (spawner snap now w) = core w.
Proof.
  intros snap now w. unfold spawner.
  assert (H : core
    (if now - lastSpawnRef w
        >? Z.max SPAWN_INTERVAL_MIN (SPAWN_INTERVAL_BASE - waveRef w * 100)
     then
       let w0 := set_lastSpawnRef now w in
       let w1 := set_spawnsSinceSpecialRef (spawnsSinceSpecialRef w0 + 1) w0 in
       let '(r, w2) := random w1 in
       let w3 := if JS.lt r CRITICAL_THROW_CHANCE
                 then criticalThrow w2 else regularSpawn w2 in
       let w4 := maybeSpawnSpecial w3 in
       advanceWave snap w4
     else w) = core w).
  { destruct (now - lastSpawnRef w >? _); [|reflexivity].
    unfold random. cbv zeta. cbn [fst snd].
    rewrite advanceWave_core, maybeSpawnSpecial_core.
    match goal with
    | |- context [if ?c then _ else _] => destruct c
    end; [rewrite criticalThrow_core | rewrite regularSpawn_core];
      reflexivity. }
  destruct (activeEffect snap) as [[|]|]; [reflexivity | exact H | exact H].
Qed.

Lemma updateOthers_core : forall ts g now w,
  core (updateOthers ts g now w) = core w.
Proof. reflexivity. Qed.

(** The loop of the fruit updater, as a filter: the fruits kept are the
    moved fruits that did not fall off, and [missedCount] is the number of
    moved fruits that did. *)
Lemma sweepFruits_spec : forall ts g prev,
  sweepFruits ts g prev
  = (filter (fun f => negb (fellOff f)) (map (stepFruit ts g) prev),
     Z.of_nat (List.length (filter fellOff (map (stepFruit ts g) prev)))).
Proof.
  intros ts g. induction prev as [|f prev IH]; [reflexivity|].
  cbn [sweepFruits map filter]. rewrite IH.
  destruct (fellOff (stepFruit ts g f)); cbn [negb List.length].
  - f_equal. lia.
  - reflexivity.
Qed.

Lemma missedCount_nonneg : forall ts g prev,
  0 <= snd (sweepFruits ts g prev).
Proof. intros. rewrite sweepFruits_spec. cbn [snd]. lia. Qed.

End PhysicsFacts.

Section MissFacts.

Context {env : Env}.

(** A miss update that empties the lives: one write, one transition. *)
Lemma missStatsUpdate_over : forall m w,
  canWrite w ->
  lives (stats w) - m <= 0 ->
  exists w',
    missStatsUpdate m w = Normal w'
    /\ stats w' = {| score := score (stats w); lives := 0;
                     combo := combo (stats w);
                     maxCombo := maxCombo (stats w);
                     fruitsSliced := fruitsSliced (stats w);
                     highScore := Z.max (score (stats w))
                                    (highScore (stats w)) |}
    /\ gameState w' = gameover
    /\ stateLog w' = gameover :: stateLog w
    /\ writeLog (storage w')
       = Z.max (score (stats w)) (highScore (stats w))
         :: writeLog (storage w)
    /\ canWrite w'
    /\ persisted (storage w')
       = Some (Z.max (score (stats w)) (highScore (stats w))).
Proof.
  intros m w Hw Hle. unfold missStatsUpdate.
  destruct (Z.leb_spec (lives (stats w) - m) 0) as [_|Hgt]; [|lia].
  rewrite setItem_canWrite by exact Hw.
  eexists; split; [reflexivity|]. repeat split.
Qed.

Lemma missStatsUpdate_over_unwritable : forall m w,
  writable (storage w) = false ->
  lives (stats w) - m <= 0 ->
  missStatsUpdate m w = Uncaught StorageError.
Proof.
  intros m w Hw Hle. unfold missStatsUpdate.
  destruct (Z.leb_spec (lives (stats w) - m) 0) as [_|Hgt]; [|lia].
  rewrite setItem_unwritable by exact Hw. reflexivity.
Qed.

(** A miss update that leaves a life: only [lives] changes. *)
Lemma missStatsUpdate_alive : forall m w,
  0 < lives (stats w) - m ->
  missStatsUpdate m w
  = Normal (set_stats {| score := score (stats w);
                         lives := lives (stats w) - m;
                         combo := combo (stats w);
                         maxCombo := maxCombo (stats w);
                         fruitsSliced := fruitsSliced (stats w);
                         highScore := highScore (stats w) |} w).
Proof.
  intros m w Hgt. unfold missStatsUpdate.
  destruct (Z.leb_spec (lives (stats w) - m) 0) as [Hle|_]; [lia|].
  reflexivity.
Qed.

(** What follows the fruit updater leaves the core of the state alone. *)
Lemma physics_tail_core : forall snap now ts g updated w,
  core (spawner snap now (updateOthers ts g now (set_fruits updated w)))
  = core w.
Proof. intros. rewrite spawner_core. reflexivity. Qed.

Lemma updatePhysics_unfold : forall snap now w,
  updatePhysics snap now w
  = (if missedIn snap w >? 0
     then missStatsUpdate (missedIn snap w) w else Normal w)
    >>= fun w1 =>
      Normal (spawner snap now
                (updateOthers (timeScale snap) (GRAVITY * timeScale snap)%js
                   now
                   (set_fruits
                      (fst (sweepFruits (timeScale snap)
                              (GRAVITY * timeScale snap)%js (fruits w)))
                      w1))).
Proof.
  intros snap now w. unfold updatePhysics, updateFruits, missedIn.
  destruct (sweepFruits (timeScale snap) (GRAVITY * timeScale snap)%js
              (fruits w)) as [updated m].
  cbn [fst snd].
  destruct (if m >? 0 then missStatsUpdate m w else Normal w);
    reflexivity.
Qed.

(** A frame whose misses leave a life (or that has no miss) completes,
    whatever the storage: [lives] drops by the number of misses and
    nothing else of the core changes. *)
Lemma updatePhysics_alive : forall snap now w,
  exhausts snap w = false ->
  exists w',
    updatePhysics snap now w = Normal w'
    /\ livesOf w' = livesOf w - missedIn snap w
    /\ score (stats w') = score (stats w)
    /\ highScore (stats w') = highScore (stats w)
    /\ gameState w' = gameState w
    /\ stateLog w' = stateLog w
    /\ storage w' = storage w.
Proof.
  intros snap now w Hex. rewrite updatePhysics_unfold.
  unfold exhausts, livesOf in *. rewrite Z.gtb_ltb.
  pose proof (missedCount_nonneg (timeScale snap)
                (GRAVITY * timeScale snap)%js (fruits w)) as Hnn.
  fold (missedIn snap w) in Hnn.
  destruct (Z.ltb_spec 0 (missedIn snap w)) as [Hpos|Hzero].
  - cbn [andb] in Hex. apply Z.leb_gt in Hex.
    rewrite missStatsUpdate_alive by lia. cbn [andThen].
    eexists; split; [reflexivity|].
    match goal with
    | |- context [spawner ?s ?n (updateOthers ?t ?g ?n (set_fruits ?u ?w0))] =>
        pose proof (physics_tail_core s n t g u w0) as Hc
    end.
    unfold core in Hc. injection Hc as Hc1 Hc2 Hc3 Hc4 Hc5.
    rewrite Hc1, Hc2, Hc3, Hc4. repeat split.
  - cbn [andThen].
    eexists; split; [reflexivity|].
    match goal with
    | |- context [spawner ?s ?n (updateOthers ?t ?g ?n (set_fruits ?u ?w0))] =>
        pose proof (physics_tail_core s n t g u w0) as Hc
    end.
    unfold core in Hc. injection Hc as Hc1 Hc2 Hc3 Hc4 Hc5.
    rewrite Hc1, Hc2, Hc3, Hc4. repeat split. lia.
Qed.

(** A frame whose misses exhaust the lives, with a storage that accepts
    writes: lives 0, one transition to game over, one write. *)
Lemma updatePhysics_over : forall snap now w,
  exhausts snap w = true ->
  canWrite w ->
  exists w',
    updatePhysics snap now w = Normal w'
    /\ livesOf w' = 0
    /\ score (stats w') = score (stats w)
    /\ highScore (stats w')
       = Z.max (score (stats w)) (highScore (stats w))
    /\ gameState w' = gameover
    /\ stateLog w' = gameover :: stateLog w
    /\ writeLog (storage w')
       = Z.max (score (stats w)) (highScore (stats w))
         :: writeLog (storage w)
    /\ canWrite w'
    /\ persisted (storage w')
       = Some (Z.max (score (stats w)) (highScore (stats w))).
Proof.
  intros snap now w Hex Hw. rewrite updatePhysics_unfold.
  unfold exhausts, livesOf in *. rewrite Z.gtb_ltb.
  apply andb_true_iff in Hex. destruct Hex as [Hpos Hle].
  rewrite Hpos. apply Z.leb_le in Hle.
  destruct (missStatsUpdate_over (missedIn snap w) w Hw)
    as (w1 & Hrun & Hst & Hgs & Hlog & Hwl & Hw1 & Hper); [lia|].
  rewrite Hrun. cbn [andThen].
  eexists; split; [reflexivity|].
  match goal with
  | |- context [spawner ?s ?n (updateOthers ?t ?g ?n (set_fruits ?u ?w0))] =>
      pose proof (physics_tail_core s n t g u w0) as Hc
  end.
  unfold core in Hc. injection Hc as Hc1 Hc2 Hc3 Hc4 Hc5.
  unfold canWrite. rewrite Hc1, Hc2, Hc3, Hc4, Hst, Hgs, Hlog, Hwl, Hper.
  repeat split. exact Hw1.
Qed.

(** The same frame with a storage that refuses writes. *)
Lemma updatePhysics_over_unwritable : forall snap now w,
  exhausts snap w = true ->
  writable (storage w) = false ->
  updatePhysics snap now w = Uncaught StorageError.
Proof.
  intros snap now w Hex Hw. rewrite updatePhysics_unfold.
  unfold exhausts, livesOf in *. rewrite Z.gtb_ltb.
  apply andb_true_iff in Hex. destruct Hex as [Hpos Hle].
  rewrite Hpos. apply Z.leb_le in Hle.
  rewrite missStatsUpdate_over_unwritable by (auto; lia).
  reflexivity.
Qed.

(** A bomb slice, with a storage that accepts writes. *)
Lemma sliceBomb_completes : forall w,
  canWrite w ->
  exists w',
    sliceBomb w = Normal w'
    /\ livesOf w' = 0
    /\ gameState w' = gameover
    /\ stateLog w' = gameover :: stateLog w
    /\ score (stats w') = score (stats w)
    /\ highScore (stats w') = Z.max (score (stats w)) (highScore (stats w))
    /\ writeLog (storage w')
       = (if Z.max (score (stats w)) (highScore (stats w))
             >? highScore (stats w)
          then Z.max (score (stats w)) (highScore (stats w))
               :: writeLog (storage w)
          else writeLog (storage w))
    /\ canWrite w'.
Proof.
  intros w Hw. unfold sliceBomb, bombStatsUpdate, livesOf.
  cbn [stats setTimeout snd set_nextTimerId set_timers set_bombFlash].
  destruct (Z.max (score (stats w)) (highScore (stats w))
            >? highScore (stats w)).
  - rewrite setItem_canWrite by exact Hw.
    eexists; split; [reflexivity|]. repeat split.
  - eexists; split; [reflexivity|]. repeat split. exact Hw.
Qed.

End MissFacts.

(** C2, as the code has it.  In every frame the [M] fruits that cross the
    lower bound cost lives in one batched update: [lives] becomes
    [lives - M] while that leaves a life, and exactly 0, with the game
    state set to game over, as soon as [M] reaches [lives] (never less than
    0).  Slicing a bomb sets [lives] to exactly 0 and the game state to game
    over, whatever lives remained.  (Storage accepting writes.) *)
Theorem missed_fruits_batched : forall (env : Env),
  (forall (snap w : World) (now : Z),
      canWrite w ->
      exists w',
        updatePhysics snap now w = Normal w'
        /\ missedIn snap w
           = Z.of_nat (List.length
               (filter fellOff
                  (map (stepFruit (timeScale snap)
                          (GRAVITY * timeScale snap)%js) (fruits w))))
        /\ livesOf w'
           = (if (0 <? missedIn snap w) && (livesOf w <=? missedIn snap w)
              then 0 else livesOf w - missedIn snap w)
        /\ gameState w'
           = (if (0 <? missedIn snap w) && (livesOf w <=? missedIn snap w)
              then gameover else gameState w))
  /\
  (forall (w : World),
      canWrite w ->
      exists w',
        sliceBomb w = Normal w'
        /\ livesOf w' = 0
        /\ gameState w' = gameover).
Proof.
  intro env. split.
  - intros snap w now Hw.
    assert (Hm : missedIn snap w
                 = Z.of_nat (List.length
                     (filter fellOff
                        (map (stepFruit (timeScale snap)
                                (GRAVITY * timeScale snap)%js) (fruits w)))))
      by (unfold missedIn; rewrite sweepFruits_spec; reflexivity).
    fold (exhausts snap w).
    destruct (exhausts snap w) eqn:Hex.
    + destruct (updatePhysics_over snap now w Hex Hw)
        as (w' & Hrun & Hl & _ & _ & Hg & _).
      exists w'. auto.
    + destruct (updatePhysics_alive snap now w Hex)
        as (w' & Hrun & Hl & _ & _ & Hg & _).
      exists w'. auto.
  - intros w Hw.
    destruct (sliceBomb_completes w Hw) as (w' & Hrun & Hl & Hg & _).
    exists w'. auto.
Qed.

(** One fruit falls off with three lives: two lives are left.  A bomb
    sliced with three lives: none is left and the game is over. *)
Lemma missed_fruits_batched_witness :
  canWrite oneFalling
  /\ (exists w',
        @updatePhysics sampleEnv oneFalling 100 oneFalling = Normal w'
        /\ @missedIn sampleEnv oneFalling oneFalling = 1
        /\ livesOf w' = 2
        /\ gameState w' = playing)
  /\ (exists w',
        sliceBomb oneFalling = Normal w'
        /\ livesOf w' = 0
        /\ gameState w' = gameover).
Proof.
  assert (Hw : canWrite oneFalling) by reflexivity.
  split; [exact Hw|]. split.
  - destruct (proj1 (missed_fruits_batched sampleEnv)
                oneFalling oneFalling 100 Hw)
      as (w' & Hrun & Hm & Hl & Hg).
    exists w'. split; [exact Hrun|].
    assert (H1 : @missedIn sampleEnv oneFalling oneFalling = 1)
      by (vm_compute; reflexivity).
    rewrite H1 in Hl, Hg.
    split; [exact H1|]. split; [exact Hl | exact Hg].
  - exact (proj2 (missed_fruits_batched sampleEnv) oneFalling Hw).
Defined.

(** C2, as stated, fails when more fruits fall off in one frame than lives
    remain: with three lives and four fruits missed in the same frame,
    [lives] goes to 0, not down by four. *)
Lemma missed_fruits_counterexample :
  livesOf fourFalling = 3
  /\ @missedIn sampleEnv fourFalling fourFalling = 4
  /\ observe livesOf (@updatePhysics sampleEnv fourFalling 100 fourFalling)
     = Some 0
  /\ observe livesOf (@updatePhysics sampleEnv fourFalling 100 fourFalling)
     <> Some (livesOf fourFalling - 4).
Proof.
  assert (H : observe livesOf
                (@updatePhysics sampleEnv fourFalling 100 fourFalling)
              = Some 0) by (vm_compute; reflexivity).
  repeat split; try (vm_compute; reflexivity); try exact H.
  rewrite H. vm_compute. discriminate.
Qed.

(** ** Lives and the transition to game over *)

Section LivesFacts.

Context {env : Env}.














Lemma runEvents_reachable : forall es w w',
  reachable w -> runEvents es w = Normal w' -> reachable w'.
Proof.
  unfold runEvents. induction es as [|e es IH]; intros w w' Hr H.
  - cbn [forEach] in H. injection H as <-. exact Hr.
  - cbn [forEach] in H.
    apply andThen_Normal in H. destruct H as (w1 & H1 & H2).
    eapply IH; [eapply reach_step; eassumption | exact H2].
Qed.

Section Collisions.

Variable P : World -> Prop.
Hypothesis P_sliceFruit : forall fruit sliceAngle now v v',
  P v -> sliceFruit fruit sliceAngle now v = Normal v' -> P v'.
Hypothesis P_sliceSpecialFruit : forall captured special v,
  P v -> P (sliceSpecialFruit captured special v).
Hypothesis P_sliceBomb : forall v v', P v -> sliceBomb v = Normal v' -> P v'.



End Collisions.








End LivesFacts.



(** ** Persisting the high score *)

Section StorageFacts.

Context {env : Env}.

(** A fruit slice writes the high score exactly when the new score is above
    the high score it had. *)
Lemma sliceFruit_writes : forall fruit sliceAngle now w,
  canWrite w ->
  exists w',
    sliceFruit fruit sliceAngle now w = Normal w'
    /\ writeLog (storage w')
       = (if score (stats w)
             + FRUIT_POINTS (fruit_type fruit)
               * comboMultiplierOf (isPartOfComboAt now w) (stats w)
             >? highScore (stats w)
          then score (stats w)
               + FRUIT_POINTS (fruit_type fruit)
                 * comboMultiplierOf (isPartOfComboAt now w) (stats w)
               :: writeLog (storage w)
          else writeLog (storage w)).
Proof.
  intros fruit sliceAngle now w Hw.
  unfold sliceFruit, fruitStatsUpdate.
  set (part := isPartOfComboAt now w).
  cbn [stats set_lastComboTimeRef].
  set (newScore := score (stats w)
                   + FRUIT_POINTS (fruit_type fruit)
                     * comboMultiplierOf part (stats w)).
  destruct (Z.gtb_spec newScore (highScore (stats w))) as [Hgt|Hle].
  - replace (Z.max newScore (highScore (stats w))) with newScore by lia.
    destruct (Z.gtb_spec newScore (highScore (stats w))) as [_|Hle]; [|lia].
    rewrite setItem_canWrite by exact Hw.
    eexists; split; reflexivity.
  - replace (Z.max newScore (highScore (stats w)))
      with (highScore (stats w)) by lia.
    rewrite Z.gtb_ltb, Z.ltb_irrefl.
    eexists; split; reflexivity.
Qed.

(** With a storage that refuses writes, a fruit slice that beats the high
    score lets the exception escape. *)
Lemma sliceFruit_unwritable : forall fruit sliceAngle now w,
  writable (storage w) = false ->
  highScore (stats w)
  < score (stats w)
    + FRUIT_POINTS (fruit_type fruit)
      * comboMultiplierOf (isPartOfComboAt now w) (stats w) ->
  sliceFruit fruit sliceAngle now w = Uncaught StorageError.
Proof.
  intros fruit sliceAngle now w Hw Hgt.
  unfold sliceFruit, fruitStatsUpdate.
  set (part := isPartOfComboAt now w) in *.
  cbn [stats set_lastComboTimeRef].
  set (newScore := score (stats w)
                   + FRUIT_POINTS (fruit_type fruit)
                     * comboMultiplierOf part (stats w)) in *.
  replace (Z.max newScore (highScore (stats w))) with newScore by lia.
  destruct (Z.gtb_spec newScore (highScore (stats w))) as [_|Hle]; [|lia].
  rewrite setItem_unwritable by exact Hw. reflexivity.
Qed.

Lemma sliceBomb_unwritable : forall w,
  writable (storage w) = false ->
  highScore (stats w) < score (stats w) ->
  sliceBomb w = Uncaught StorageError.
Proof.
  intros w Hw Hgt. unfold sliceBomb, bombStatsUpdate.
  cbn [stats setTimeout snd set_nextTimerId set_timers set_bombFlash].
  replace (Z.max (score (stats w)) (highScore (stats w)))
    with (score (stats w)) by lia.
  destruct (Z.gtb_spec (score (stats w)) (highScore (stats w)))
    as [_|Hle]; [|lia].
  rewrite setItem_unwritable by exact Hw. reflexivity.
Qed.

End StorageFacts.

(** C3, where the code departs from it.  A game over by misses writes the
    high score whatever the score: when the score does not exceed the
    stored high score, the value written is the stored high score itself.
    (The fruit slice and the bomb slice write only above it:
    [sliceFruit_writes], [sliceBomb_completes].) *)
Theorem miss_game_over_rewrites_high_score :
  forall (env : Env) (snap w : World) (now : Z),
    canWrite w ->
    exhausts snap w = true ->
    score (stats w) <= highScore (stats w) ->
    persisted (storage w) = Some (highScore (stats w)) ->
    exists w',
      updatePhysics snap now w = Normal w'
      /\ writeLog (storage w') = highScore (stats w) :: writeLog (storage w)
      /\ persisted (storage w') = persisted (storage w).
Proof.
  intros env snap w now Hw Hex Hle Hper.
  destruct (updatePhysics_over snap now w Hex Hw)
    as (w' & Hrun & _ & _ & _ & _ & _ & Hlog & _ & Hp).
  exists w'. split; [exact Hrun|].
  replace (Z.max (score (stats w)) (highScore (stats w)))
    with (highScore (stats w)) in Hlog, Hp by lia.
  rewrite Hper. auto.
Qed.

(** A game on a storage that holds 10 ends by three misses with score 0:
    10 is written again. *)
Lemma miss_game_over_rewrites_high_score_witness :
  canWrite defendingTen
  /\ @exhausts sampleEnv defendingTen defendingTen = true
  /\ score (stats defendingTen) <= highScore (stats defendingTen)
  /\ persisted (storage defendingTen) = Some 10
  /\ exists w',
       @updatePhysics sampleEnv defendingTen 100 defendingTen = Normal w'
       /\ writeLog (storage w') = [10]
       /\ persisted (storage w') = Some 10.
Proof.
  assert (Hw : canWrite defendingTen) by reflexivity.
  assert (Hex : @exhausts sampleEnv defendingTen defendingTen = true)
    by (vm_compute; reflexivity).
  assert (Hle : score (stats defendingTen) <= highScore (stats defendingTen))
    by (vm_compute; discriminate).
  assert (Hper : persisted (storage defendingTen)
                 = Some (highScore (stats defendingTen))) by reflexivity.
  repeat (split; [assumption || reflexivity|]).
  exact (miss_game_over_rewrites_high_score sampleEnv defendingTen
           defendingTen 100 Hw Hex Hle Hper).
Defined.

(** C7, where the code departs from it.  The engine calls
    [localStorage.setItem] outside any [try]: with a storage that refuses
    writes, every handler that reaches the write lets the exception escape
    (a fruit slice that beats the high score, a bomb slice with a score
    above it, a game over by misses).  Only [saveBestScore] of the first
    implementation swallows the failure. *)
Theorem storage_failure_escapes : forall (env : Env),
  (forall (fruit : Fruit) (sliceAngle : JS.number) (now : Z) (w : World),
      writable (storage w) = false ->
      highScore (stats w)
      < score (stats w)
        + FRUIT_POINTS (fruit_type fruit)
          * comboMultiplierOf (isPartOfComboAt now w) (stats w) ->
      sliceFruit fruit sliceAngle now w = Uncaught StorageError)
  /\
  (forall w : World,
      writable (storage w) = false ->
      highScore (stats w) < score (stats w) ->
      sliceBomb w = Uncaught StorageError)
  /\
  (forall (snap w : World) (now : Z),
      writable (storage w) = false ->
      exhausts snap w = true ->
      updatePhysics snap now w = Uncaught StorageError)
  /\
  (forall g : Legacy.Game,
      writable (Legacy.store g) = false ->
      Legacy.saveBestScore g = g).
Proof.
  intro env. repeat split.
  - apply sliceFruit_unwritable.
  - apply sliceBomb_unwritable.
  - intros snap w now Hw Hex.
    apply updatePhysics_over_unwritable; assumption.
  - intros g Hw. unfold Legacy.saveBestScore, storageSetItem.
    rewrite Hw. reflexivity.
Qed.

(** The first fruit sliced in a game on a storage that refuses writes: the
    slice, and the frame around it, end in an uncaught exception. *)
Lemma storage_failure_escapes_witness :
  writable (storage brokenGame) = false
  /\ @sliceFruit sampleEnv (fruitAt "a" apple 100 100 35) (JS.ofZ 0) 1000
       brokenGame = Uncaught StorageError
  /\ @gameLoop sampleEnv oneSegment true 1000 brokenGame
     = Uncaught StorageError
  /\ Legacy.saveBestScore
       {| Legacy.gameScore := 5; Legacy.bestScore := 5;
          Legacy.store := brokenStorage |}
     = {| Legacy.gameScore := 5; Legacy.bestScore := 5;
          Legacy.store := brokenStorage |}.
Proof.
  assert (Hw : writable (storage brokenGame) = false) by reflexivity.
  split; [exact Hw|]. split; [|split].
  - apply (proj1 (storage_failure_escapes sampleEnv)); [exact Hw|].
    vm_compute. reflexivity.
  - vm_compute. reflexivity.
  - apply (proj2 (proj2 (proj2 (storage_failure_escapes sampleEnv)))).
    reflexivity.
Defined.

(** ** One entity, several segments *)

(** C5, where the code departs from it.  In a reachable state with one live
    fruit (a banana, worth one point), a swipe whose first segment enters
    the hit box and whose second segment leaves it slices the fruit twice in
    one collision pass: [fruitsSliced] becomes 2, the score 3 (one point,
    then two at combo 2), and four halves are created.  The fruit does leave
    the live collection by the end of the frame.  Likewise a fruit at rest
    is sliced once by a swipe of one segment across it, and twice when the
    same swipe comes as two segments. *)
Theorem fruit_sliced_twice_in_one_pass :
  observe (fun w => map fruit_type (fruits w))
    (@runEvents sampleEnv (removelast doubleSliceTrace)
       (@initialWorld emptyStorage))
  = Some [banana]
  /\ observe (fun w => (scoreOf w, fruitsSliced (stats w), combo (stats w),
                        List.length (slicedFruits w), fruits w))
       (@runEvents sampleEnv doubleSliceTrace (@initialWorld emptyStorage))
     = Some (3, 2, 2, 4%nat, [])
  /\ observe (fun w => (scoreOf w, fruitsSliced (stats w)))
       (@checkCollisions sampleEnv oneRising oneSegment true 1000 oneRising)
     = Some (1, 1)
  /\ observe (fun w => (scoreOf w, fruitsSliced (stats w)))
       (@checkCollisions sampleEnv oneRising twoSegments true 1000 oneRising)
     = Some (3, 2).
Proof. repeat split; vm_compute; reflexivity. Qed.

(** The same for a bomb: one bomb crossed by two segments is resolved
    twice. *)
Lemma bomb_resolved_twice_in_one_pass :
  observe (fun w => gameOverTriggers (stateLog w))
    (@checkCollisions sampleEnv
       (set_bombs [bombAt "b" 100 100] freshGame) twoSegments true 1000
       (set_bombs [bombAt "b" 100 100] freshGame))
  = Some 2%nat.
Proof. vm_compute. reflexivity. Qed.

(** ** Deferred spawns *)

Section TimerFacts.

Context {env : Env}.

Lemma spawnFruit_appends : forall w,
  exists fruit, fruits (spawnFruit w) = fruits w ++ [fruit].
Proof. intro w. eexists. reflexivity. Qed.

Lemma spawnFruit_gameState : forall w, gameState (spawnFruit w) = gameState w.
Proof. reflexivity. Qed.

End TimerFacts.

(** C6, where the code departs from it.  The callback the spawner defers,
    [() => spawnFruit()], checks nothing: whenever it fires, in whatever
    state the game is then, it adds a fruit to the live fruits.  The
    callback of the frenzy effect checks the [gameState] it captured when
    it was created, not the state at the time it fires. *)
Theorem deferred_spawn_ignores_game_state :
  forall (env : Env) (id : nat) (t : Timer) (w : World),
    find (fun t => Nat.eqb (timer_id t) id) (timers w) = Some t ->
    timer_callback t = CbSpawnFruit
    \/ timer_callback t = CbFrenzySpawn playing ->
    gameState (fireTimer id w) = gameState w
    /\ List.length (fruits (fireTimer id w)) = S (List.length (fruits w)).
Proof.
  intros env id t w Hfind Hcb. unfold fireTimer. rewrite Hfind.
  assert (H : runCallback (timer_callback t) (clearTimeout id w)
              = spawnFruit (clearTimeout id w))
    by (destruct Hcb as [-> | ->]; reflexivity).
  rewrite H, spawnFruit_gameState.
  destruct (spawnFruit_appends (clearTimeout id w)) as (fruit & Hf).
  rewrite Hf, length_app. cbn. split; [reflexivity | lia].
Qed.

(** A bomb ends the game in the frame in which the spawner defers the next
    fruit; the deferred callback then fires on the game-over screen and a
    fruit appears among the live fruits. *)
Lemma deferred_spawn_ignores_game_state_witness :
  observe (fun w => (gameState w, fruits w,
                     find (fun t => Nat.eqb (timer_id t) 3) (timers w)))
    (@runEvents bombEnv bombThenSpawnTrace (@initialWorld emptyStorage))
  = Some (gameover, [],
          Some {| timer_id := 3; timer_delay := 0;
                  timer_callback := CbSpawnFruit |})
  /\ observe (fun w => (gameState w, List.length (fruits w)))
       (@runEvents bombEnv (bombThenSpawnTrace ++ [TimerFires 3])
          (@initialWorld emptyStorage))
     = Some (gameover, 1%nat)
  /\ gameState
       (@fireTimer bombEnv 3
          (finalWorld (@runEvents bombEnv bombThenSpawnTrace
                         (@initialWorld emptyStorage))
             (@initialWorld emptyStorage)))
     = gameover
  /\ List.length
       (fruits
          (@fireTimer bombEnv 3
             (finalWorld (@runEvents bombEnv bombThenSpawnTrace
                            (@initialWorld emptyStorage))
                (@initialWorld emptyStorage))))
     = 1%nat.
Proof.
  split; [vm_compute; reflexivity|]. split; [vm_compute; reflexivity|].
  assert (Hfind :
    find (fun t => Nat.eqb (timer_id t) 3)
      (timers (finalWorld (@runEvents bombEnv bombThenSpawnTrace
                             (@initialWorld emptyStorage))
                 (@initialWorld emptyStorage)))
    = Some {| timer_id := 3; timer_delay := 0;
              timer_callback := CbSpawnFruit |})
    by (vm_compute; reflexivity).
  destruct (deferred_spawn_ignores_game_state bombEnv 3 _ _ Hfind
              (or_introl eq_refl)) as (Hg & Hl).
  split.
  - rewrite Hg. vm_compute. reflexivity.
  - rewrite Hl. vm_compute. reflexivity.
Defined.

(** ** The halves of a sliced fruit *)

Section HalvesFacts.

Context {env : Env}.

Lemma createSlicedFruit_appends : forall fruit sliceAngle now w,
  exists idL idR,
    slicedFruits (createSlicedFruit fruit sliceAngle now w)
    = slicedFruits w ++ [leftHalf idL fruit sliceAngle now;
                         rightHalf idR fruit sliceAngle now].
Proof. intros. eexists. eexists. reflexivity. Qed.

Lemma sliceSpecialFruit_frame : forall captured special w,
  slicedFruits (sliceSpecialFruit captured special w) = slicedFruits w
  /\ storage (sliceSpecialFruit captured special w) = storage w.
Proof.
  intros captured special w.
  unfold sliceSpecialFruit, activateFrenzy, activateFreeze,
    clearEffectTimeout.
  destruct (specialType special);
    match goal with
    | |- context [match ?e with Some _ => _ | None => _ end] => destruct e
    end; split; reflexivity.
Qed.

Lemma sliceBomb_frame : forall w w',
  sliceBomb w = Normal w' -> slicedFruits w' = slicedFruits w.
Proof.
  intros w w' H.
  unfold sliceBomb, bombStatsUpdate, setItem in H.
  cbn [stats storage setTimeout snd set_nextTimerId set_timers set_bombFlash]
    in H.
  destruct (Z.max _ _ >? _) in H;
    [destruct (storageSetItem _ (storage w)) in H|];
    cbn [andThen] in H; try discriminate;
    injection H as <-; reflexivity.
Qed.

(** The fruit loop of one segment: two halves for every fruit hit, in the
    order of the hits. *)
Lemma fruitLoop_halves : forall p1 p2 sliceAngle now l w w',
  forEach l (fun fruit w =>
    if negb (fruit_sliced fruit)
       && hits p1 p2 (fruit_x fruit) (fruit_y fruit)
            (fruit_radius fruit * JS.dec 115 2)%js
    then sliceFruit fruit sliceAngle now w
    else Normal w) w = Normal w' ->
  exists ids : list (string * string),
    List.length ids = List.length (filter (hitBy p1 p2) l)
    /\ slicedFruits w'
       = slicedFruits w
         ++ flat_map (halvesOf sliceAngle now)
              (combine (filter (hitBy p1 p2) l) ids).
Proof.
  intros p1 p2 sliceAngle now.
  induction l as [|fruit l IH]; intros w w' H.
  - cbn [forEach] in H. injection H as <-. exists [].
    split; [reflexivity|]. cbn. rewrite app_nil_r. reflexivity.
  - cbn [forEach] in H.
    apply andThen_Normal in H. destruct H as (w1 & H1 & H2).
    destruct (IH w1 w' H2) as (ids & Hlen & Hh).
    cbn [filter]. fold (hitBy p1 p2 fruit) in H1.
    destruct (hitBy p1 p2 fruit).
    + apply sliceFruit_done in H1.
      destruct H1 as (_ & _ & _ & _ & _ & idL & idR & H1).
      exists ((idL, idR) :: ids). split; [cbn [List.length]; lia|].
      rewrite Hh, H1. cbn [combine flat_map halvesOf fst snd].
      rewrite <- app_assoc. reflexivity.
    + injection H1 as <-. exists ids. split; assumption.
Qed.

Lemma collideSegment_halves : forall snap now p1 p2 w w',
  collideSegment snap now (p1, p2) w = Normal w' ->
  exists ids : list (string * string),
    List.length ids = List.length (filter (hitBy p1 p2) (fruits snap))
    /\ slicedFruits w'
       = slicedFruits w
         ++ flat_map
              (halvesOf (atan2 (bp_y p2 - bp_y p1)%js (bp_x p2 - bp_x p1)%js)
                 now)
              (combine (filter (hitBy p1 p2) (fruits snap)) ids).
Proof.
  intros snap now p1 p2 w w' H. unfold collideSegment in H.
  apply andThen_Normal in H. destruct H as (w1 & H1 & H23).
  apply andThen_Normal in H23. destruct H23 as (w2 & H2 & H3).
  apply fruitLoop_halves in H1. destruct H1 as (ids & Hlen & Hh).
  exists ids. split; [exact Hlen|]. rewrite <- Hh.
  assert (Hw2 : slicedFruits w2 = slicedFruits w1).
  { revert H2.
    apply forEach_preserves
      with (P := fun v => slicedFruits v = slicedFruits w1); [|reflexivity].
    intros special v v' Hv Hb.
    destruct (hits _ _ _ _ _) in Hb; injection Hb as <-; [|exact Hv].
    destruct (sliceSpecialFruit_frame (gameState snap) special v) as (Hb & _).
    rewrite Hb. exact Hv. }
  rewrite <- Hw2.
  assert (Hbombs : forall u u',
             forEach (bombs snap) (fun bomb w =>
               if negb (bomb_sliced bomb)
                  && hits p1 p2 (bomb_x bomb) (bomb_y bomb) (bomb_radius bomb)
               then sliceBomb w else Normal w) u = Normal u' ->
             slicedFruits u' = slicedFruits u).
  { intros u u' Hrun. revert Hrun.
    apply forEach_preserves
      with (P := fun v => slicedFruits v = slicedFruits u); [|reflexivity].
    intros bomb v v' Hv Hb.
    destruct (negb (bomb_sliced bomb) && _) in Hb.
    - apply sliceBomb_frame in Hb. rewrite Hb. exact Hv.
    - injection Hb as <-. exact Hv. }
  destruct (activeEffect snap) as [[|]|].
  - injection H3 as <-. reflexivity.
  - eapply Hbombs; eassumption.
  - eapply Hbombs; eassumption.
Qed.

(** On a storage that accepts writes the collision test of a segment
    completes. *)
Lemma collideSegment_completes : forall snap now seg w,
  canWrite w ->
  exists w', collideSegment snap now seg w = Normal w' /\ canWrite w'.
Proof.
  intros snap now [p1 p2] w Hw. unfold collideSegment.
  destruct (forEach_completes Fruit canWrite
              (fun fruit w =>
                 if negb (fruit_sliced fruit)
                    && hits p1 p2 (fruit_x fruit) (fruit_y fruit)
                         (fruit_radius fruit * JS.dec 115 2)%js
                 then sliceFruit fruit
                        (atan2 (bp_y p2 - bp_y p1)%js (bp_x p2 - bp_x p1)%js)
                        now w
                 else Normal w)) with (l := fruits snap) (w := w)
    as (w1 & H1 & Hw1); [|exact Hw|].
  { intros fruit v Hv. destruct (negb (fruit_sliced fruit) && _).
    - destruct (sliceFruit_completes fruit
                  (atan2 (bp_y p2 - bp_y p1)%js (bp_x p2 - bp_x p1)%js)
                  now v Hv) as (v' & Hrun & _ & _ & _ & _ & Hv').
      exists v'. split; assumption.
    - exists v. split; [reflexivity | exact Hv]. }
  rewrite H1. cbn [andThen].
  destruct (forEach_completes SpecialFruit canWrite
              (fun special w =>
                 if hits p1 p2 (special_x special) (special_y special)
                      (special_radius special * JS.dec 12 1)%js
                 then Normal (sliceSpecialFruit (gameState snap) special w)
                 else Normal w)) with (l := specialFruits snap) (w := w1)
    as (w2 & H2 & Hw2); [|exact Hw1|].
  { intros special v Hv. destruct (hits _ _ _ _ _).
    - eexists. split; [reflexivity|]. unfold canWrite.
      destruct (sliceSpecialFruit_frame (gameState snap) special v)
        as (_ & Hst).
      rewrite Hst. exact Hv.
    - exists v. split; [reflexivity | exact Hv]. }
  rewrite H2. cbn [andThen].
  destruct (activeEffect snap) as [[|]|].
  - exists w2. split; [reflexivity | exact Hw2].
  - apply forEach_completes with (P := canWrite); [|exact Hw2].
    intros bomb v Hv. destruct (negb (bomb_sliced bomb) && _).
    + destruct (sliceBomb_completes v Hv)
        as (v' & Hrun & _ & _ & _ & _ & _ & _ & Hv').
      exists v'. split; assumption.
    + exists v. split; [reflexivity | exact Hv].
  - apply forEach_completes with (P := canWrite); [|exact Hw2].
    intros bomb v Hv. destruct (negb (bomb_sliced bomb) && _).
    + destruct (sliceBomb_completes v Hv)
        as (v' & Hrun & _ & _ & _ & _ & _ & _ & Hv').
      exists v'. split; assumption.
    + exists v. split; [reflexivity | exact Hv].
Qed.

End HalvesFacts.

(** C8, as the code has it.  A fruit slice creates exactly two halves at
    the position of the fruit, unless it raises the score above the high
    score on a storage that refuses the write: then the failure escapes the
    slice.  The collision test of a segment, on any snapshot, creates two
    halves for every fruit the segment hits, in the order of the hits, and
    every one of them records the angle [atan2(dy, dx)] of that segment; it
    completes on a storage that accepts writes.  The velocities of the
    halves do not depend on the angle: the left half gets [velocityX - 3],
    the right half [velocityX + 3], both get [velocityY - 2], and their
    spins are [-8] and [8]. *)
Theorem halves_of_a_sliced_fruit : forall (env : Env),
  (forall (fruit : Fruit) (sliceAngle : JS.number) (now : Z) (w : World),
      if refusesWrite fruit now w
      then sliceFruit fruit sliceAngle now w = Uncaught StorageError
      else exists w' idL idR,
             sliceFruit fruit sliceAngle now w = Normal w'
             /\ slicedFruits w'
                = slicedFruits w ++ [leftHalf idL fruit sliceAngle now;
                                     rightHalf idR fruit sliceAngle now])
  /\
  (forall (snap w w' : World) (p1 p2 : BladePoint) (now : Z),
      collideSegment snap now (p1, p2) w = Normal w' ->
      exists ids : list (string * string),
        List.length ids
        = List.length (filter (hitBy p1 p2) (fruits snap))
        /\ slicedFruits w'
           = slicedFruits w
             ++ flat_map
                  (halvesOf
                     (atan2 (bp_y p2 - bp_y p1)%js (bp_x p2 - bp_x p1)%js)
                     now)
                  (combine (filter (hitBy p1 p2) (fruits snap)) ids))
  /\
  (forall (snap w : World) (seg : BladePoint * BladePoint) (now : Z),
      canWrite w ->
      exists w', collideSegment snap now seg w = Normal w')
  /\
  (forall (idL idR : string) (fruit : Fruit) (sliceAngle : JS.number)
          (now : Z),
      halvesOf sliceAngle now (fruit, (idL, idR))
      = [leftHalf idL fruit sliceAngle now;
         rightHalf idR fruit sliceAngle now]
      /\ sf_x (leftHalf idL fruit sliceAngle now) = fruit_x fruit
      /\ sf_y (leftHalf idL fruit sliceAngle now) = fruit_y fruit
      /\ sf_x (rightHalf idR fruit sliceAngle now) = fruit_x fruit
      /\ sf_y (rightHalf idR fruit sliceAngle now) = fruit_y fruit
      /\ sf_sliceAngle (leftHalf idL fruit sliceAngle now) = sliceAngle
      /\ sf_sliceAngle (rightHalf idR fruit sliceAngle now) = sliceAngle
      /\ sf_velocityX (leftHalf idL fruit sliceAngle now)
         = (fruit_velocityX fruit - JS.ofZ 3)%js
      /\ sf_velocityX (rightHalf idR fruit sliceAngle now)
         = (fruit_velocityX fruit + JS.ofZ 3)%js
      /\ sf_velocityY (leftHalf idL fruit sliceAngle now)
         = (fruit_velocityY fruit - JS.ofZ 2)%js
      /\ sf_velocityY (rightHalf idR fruit sliceAngle now)
         = (fruit_velocityY fruit - JS.ofZ 2)%js
      /\ sf_rotationSpeed (leftHalf idL fruit sliceAngle now) = JS.ofZ (-8)
      /\ sf_rotationSpeed (rightHalf idR fruit sliceAngle now) = JS.ofZ 8
      /\ JS.neg (sf_rotationSpeed (leftHalf idL fruit sliceAngle now))
         = sf_rotationSpeed (rightHalf idR fruit sliceAngle now)).
Proof.
  intro env. split; [|split; [|split]].
  - intros fruit sliceAngle now w.
    pose proof (sliceFruit_outcome fruit sliceAngle now w) as Ho.
    destruct (refusesWrite fruit now w); [exact Ho|].
    destruct Ho as (w' & idL & idR & Hrun & _ & _ & _ & _ & Hh).
    exists w', idL, idR. split; assumption.
  - intros snap w w' p1 p2 now H.
    apply (collideSegment_halves snap now p1 p2 w w' H).
  - intros snap w seg now Hw.
    destruct (collideSegment_completes snap now seg w Hw) as (w' & H & _).
    exists w'. exact H.
  - intros. repeat split.
Qed.

(** One horizontal segment across a game with three fruits, a special
    fruit and a bomb: it hits two of the fruits, and four halves appear. *)
Lemma halves_of_a_sliced_fruit_witness :
  (exists ids : list (string * string),
     List.length ids = 2%nat
     /\ slicedFruits
          (finalWorld (@collideSegment sampleEnv crowded 1000
                         (pointAt 0 100 990, pointAt 200 100 1000) crowded)
             crowded)
        = flat_map (halvesOf (JS.ofZ 0) 1000)
            (combine [risingFruit; fruitAt "c" banana 150 100 35] ids))
  /\ canWrite crowded
  /\ (exists w',
        @collideSegment sampleEnv crowded 1000
          (pointAt 0 100 990, pointAt 200 100 1000) crowded = Normal w').
Proof.
  assert (Hw : canWrite crowded) by reflexivity.
  assert (Hrun : @collideSegment sampleEnv crowded 1000
                   (pointAt 0 100 990, pointAt 200 100 1000) crowded
                 = Normal (finalWorld
                             (@collideSegment sampleEnv crowded 1000
                                (pointAt 0 100 990, pointAt 200 100 1000)
                                crowded) crowded))
    by (vm_compute; reflexivity).
  assert (Hhit : filter (hitBy (pointAt 0 100 990) (pointAt 200 100 1000))
                   (fruits crowded)
                 = [risingFruit; fruitAt "c" banana 150 100 35])
    by (vm_compute; reflexivity).
  destruct (halves_of_a_sliced_fruit sampleEnv) as (_ & H2 & H3 & _).
  split; [|split; [exact Hw|]].
  - destruct (H2 crowded crowded _ _ _ 1000 Hrun) as (ids & Hlen & Hh).
    rewrite Hhit in Hlen, Hh. exists ids. split; [exact Hlen | exact Hh].
  - exact (H3 crowded crowded (pointAt 0 100 990, pointAt 200 100 1000)
             1000 Hw).
Defined.

(** C8, as stated, fails.  A fruit rising at 10 is crossed by a horizontal
    swipe ([dx = 200], [dy = 0]): the two halves are pushed apart along the
    swipe, by [-3] and [+3] horizontally, so the split is not perpendicular
    to the swipe direction; and both halves rise at 12, faster than the
    fruit, not slower. *)
Lemma halves_counterexample :
  observe (fun w => map (fun h => (sf_half h, sf_velocityX h, sf_velocityY h))
                      (slicedFruits w))
    (@checkCollisions sampleEnv oneRising oneSegment true 1000 oneRising)
  = Some [(half_left, JS.ofZ (-3), JS.ofZ (-12));
          (half_right, JS.ofZ 3, JS.ofZ (-12))]
  /\ splitPerpendicular
       (leftHalf "i" risingFruit (JS.ofZ 0) 1000)
       (rightHalf "i" risingFruit (JS.ofZ 0) 1000)
       (JS.ofZ 200) (JS.ofZ 0) = false
  /\ upwardSpeed (fruit_velocityY risingFruit) = JS.ofZ 10
  /\ upwardSpeed (sf_velocityY (leftHalf "i" risingFruit (JS.ofZ 0) 1000))
     = JS.ofZ 12
  /\ upwardSpeed (sf_velocityY (rightHalf "i" risingFruit (JS.ofZ 0) 1000))
     = JS.ofZ 12.
Proof. repeat split; vm_compute; reflexivity. Qed.
